(** * The dashboard shell component (ui/src/App.vue)

    A shallow embedding of the component's script (two reactive cells, an
    asynchronous mount hook, a click listener on [document.body]) and of its
    template (a [v-if] / [v-else-if] chain over [userData]), followed by the
    properties of the component's interaction contract. *)

From Stdlib Require Import List String Ascii Bool Arith NArith ZArith Lia.
From Stdlib Require Import PrimFloat.
Import ListNotations.
Open Scope string_scope.
Open Scope list_scope.
Set Warnings "-register-all".

(** ** JavaScript values held by [userData]

    [userData] is a [ref<any | null>]: it holds [null], [false], or what its
    setter stores of the value [res.json()] produced, in any case a value
    [JSON.parse] can build. *)
Module JS.

(** Outcome of an expression that may raise. *)
Inductive result (A : Type) : Type :=
| Ok (a : A)
| Throw.
Arguments Ok {A} a.
Arguments Throw {A}.

Definition bind {A B} (r : result A) (k : A -> result B) : result B :=
  match r with
  | Ok a => k a
  | Throw => Throw
  end.

(** A string is kept as the bytes of its UTF-8 encoding; a number is an IEEE
    binary64; an object is the list of its own properties (the first entry of
    a key is the property). *)
Inductive value : Type :=
| VNull
| VBool (b : bool)
| VNumber (x : float)
| VString (s : string)
| VArray (items : list value)
| VObject (props : list (string * value)).

Fixpoint getOwn (k : string) (props : list (string * value)) : option value :=
  match props with
  | [] => None
  | (k', v) :: rest => if String.eqb k k' then Some v else getOwn k rest
  end.

Definition hasOwn (k : string) (props : list (string * value)) : bool :=
  match getOwn k props with
  | Some _ => true
  | None => false
  end.

(** *** ToBoolean *)
Definition isZero (x : float) : bool := PrimFloat.eqb x 0%float.
Definition isNaN (x : float) : bool := negb (PrimFloat.eqb x x).

Definition truthy (v : value) : bool :=
  match v with
  | VNull => false
  | VBool b => b
  | VNumber x => negb (isZero x || isNaN x)
  | VString s => negb (String.eqb s "")
  | VArray _ => true
  | VObject _ => true
  end.

(** *** StringToNumber, as far as [== false] needs it: is the result a zero?

    The literal grammar is StringNumericLiteral of ECMA-262: optional white
    space around an optional literal, the literal being a signed decimal
    (with [Infinity], fraction and exponent) or an unsigned binary, octal or
    hexadecimal integer.  A decimal literal denotes a zero exactly when its
    mathematical value rounds (to nearest, ties to even) to zero, that is
    when it is at most 2^-1075.  (ECMA-262 also lets an implementation round
    a literal after its 20th significant digit; the exact rounding, which
    the engines implement, is the one taken here.) *)
Definition codes (s : string) : list N :=
  map N_of_ascii (list_ascii_of_string s).

Local Open Scope N_scope.

Definition between (lo hi c : N) : bool := (lo <=? c) && (c <=? hi).

(** The UTF-8 encodings of the white-space and line-terminator code points:
    TAB, LF, VT, FF, CR, SP, U+00A0, U+1680, U+2000 to U+200A, U+2028,
    U+2029, U+202F, U+205F, U+3000, U+FEFF. *)
Definition whiteSpaceChars : list (list N) :=
  [ [9]; [10]; [11]; [12]; [13]; [32]; [194; 160]; [225; 154; 128];
    [226; 128; 128]; [226; 128; 129]; [226; 128; 130]; [226; 128; 131];
    [226; 128; 132]; [226; 128; 133]; [226; 128; 134]; [226; 128; 135];
    [226; 128; 136]; [226; 128; 137]; [226; 128; 138];
    [226; 128; 168]; [226; 128; 169]; [226; 128; 175]; [226; 129; 159];
    [227; 128; 128]; [239; 187; 191] ].

Fixpoint stripPrefix (p l : list N) : option (list N) :=
  match p, l with
  | [], _ => Some l
  | a :: p', b :: l' => if a =? b then stripPrefix p' l' else None
  | _ :: _, [] => None
  end.

Fixpoint stripAny (ps : list (list N)) (l : list N) : option (list N) :=
  match ps with
  | [] => None
  | p :: rest =>
      match stripPrefix p l with
      | Some r => Some r
      | None => stripAny rest l
      end
  end.

(** One white-space character off the head of the bytes, if there is one. *)
Definition dropWhiteSpaceChar (l : list N) : option (list N) :=
  stripAny whiteSpaceChars l.

Fixpoint allWhiteSpaceFuel (fuel : nat) (l : list N) : bool :=
  match l with
  | [] => true
  | _ :: _ =>
      match fuel with
      | O => false
      | S fuel' =>
          match dropWhiteSpaceChar l with
          | Some r => allWhiteSpaceFuel fuel' r
          | None => false
          end
      end
  end.

Definition allWhiteSpace (l : list N) : bool :=
  allWhiteSpaceFuel (List.length l) l.

Fixpoint trimStartFuel (fuel : nat) (l : list N) : list N :=
  match fuel with
  | O => l
  | S fuel' =>
      match dropWhiteSpaceChar l with
      | Some r => trimStartFuel fuel' r
      | None => l
      end
  end.

Fixpoint trimEnd (l : list N) : list N :=
  match l with
  | [] => []
  | c :: r => if allWhiteSpace l then [] else c :: trimEnd r
  end.

Definition trim (l : list N) : list N :=
  trimEnd (trimStartFuel (List.length l) l).

Definition isDigit (c : N) : bool := between 48 57 c.

Fixpoint spanDigits (l : list N) : list N * list N :=
  match l with
  | c :: r =>
      if isDigit c then let '(ds, rest) := spanDigits r in (c :: ds, rest)
      else ([], l)
  | [] => ([], [])
  end.

Definition digitsValue (ds : list N) : Z :=
  fold_left (fun acc c => (acc * 10 + Z.of_N (c - 48))%Z) ds 0%Z.

Definition nonEmpty {A} (l : list A) : bool :=
  match l with [] => false | _ :: _ => true end.

(** ExponentPart, optional, up to the end of the literal. *)
Definition parseExponent (l : list N) : option Z :=
  match l with
  | [] => Some 0%Z
  | c :: r =>
      if (c =? 101) || (c =? 69) then
        let '(neg, r') :=
          match r with
          | s :: r'' =>
              if s =? 43 then (false, r'')
              else if s =? 45 then (true, r'')
              else (false, r)
          | [] => (false, r)
          end in
        let '(ds, rest) := spanDigits r' in
        if nonEmpty ds && negb (nonEmpty rest)
        then Some (if neg then (- digitsValue ds)%Z else digitsValue ds)
        else None
      else None
  end.

(** Does [digits * 10^e] round to zero? *)
Definition roundsToZero (digits : list N) (e : Z) : bool :=
  let m := digitsValue digits in
  if (m =? 0)%Z then true
  else if (0 <=? e)%Z then false
  else
    let k := (- e)%Z in
    if (Z.of_nat (List.length digits) + 324 <? k)%Z then true
    else (m * 2 ^ 1075 <=? 10 ^ k)%Z.

(** StrUnsignedDecimalLiteral other than [Infinity]: [None] when the bytes
    are not such a literal. *)
Definition unsignedDecimalIsZero (l : list N) : option bool :=
  let '(ip, r1) := spanDigits l in
  let '(fp, r2) :=
    match r1 with
    | c :: r => if c =? 46 then spanDigits r else ([], r1)
    | [] => ([], [])
    end in
  if nonEmpty ip || nonEmpty fp then
    match parseExponent r2 with
    | Some e => Some (roundsToZero (ip ++ fp) (e - Z.of_nat (List.length fp)))
    | None => None
    end
  else None.

Definition isInfinityLiteral (l : list N) : bool :=
  if list_eq_dec N.eq_dec l (codes "Infinity") then true else false.

Definition radixDigit (radix : N) (c : N) : bool :=
  if radix =? 2 then between 48 49 c
  else if radix =? 8 then between 48 55 c
  else isDigit c || between 97 102 c || between 65 70 c.

(** NonDecimalIntegerLiteral: [0b], [0o] or [0x] (either case) and at least
    one digit of that radix. *)
Definition nonDecimalIsZero (l : list N) : option bool :=
  match l with
  | z :: p :: ((_ :: _) as digits) =>
      if z =? 48 then
        let radix :=
          if (p =? 98) || (p =? 66) then Some 2
          else if (p =? 111) || (p =? 79) then Some 8
          else if (p =? 120) || (p =? 88) then Some 16
          else None in
        match radix with
        | Some rd =>
            if forallb (radixDigit rd) digits
            then Some (forallb (N.eqb 48) digits)
            else None
        | None => None
        end
      else None
  | _ => None
  end.

(** [StringToNumber s] is [+0] or [-0]. *)
Definition StringToNumberIsZero (s : string) : bool :=
  match trim (codes s) with
  | [] => true
  | (c :: r) as lit =>
      match nonDecimalIsZero lit with
      | Some z => z
      | None =>
          let body := if (c =? 43) || (c =? 45) then r else lit in
          if isInfinityLiteral body then false
          else match unsignedDecimalIsZero body with
               | Some z => z
               | None => false
               end
      end
  end.

Local Close Scope N_scope.

(** *** ToPrimitive and ToString of arrays and objects

    A parsed JSON object has no callable property of its own, so an own
    [toString] shadows [Object.prototype.toString] with a non-callable value
    and the conversion finds no method that returns a primitive: TypeError.
    Otherwise an object converts to the text [[object Object]].  An array
    converts through [Array.prototype.join], which converts each element
    other than [null] with ToString. *)
Fixpoint toStringThrows (v : value) : bool :=
  match v with
  | VObject props => hasOwn "toString" props
  | VArray items => existsb toStringThrows items
  | _ => false
  end.

(** For a value whose ToString does not raise: is the text, read by
    StringToNumber, a zero?  A joined array of two or more elements holds a
    comma and is no numeric literal; the empty array gives the empty string;
    [null] inside an array gives the empty string; a number gives back
    itself (ToNumber (ToString x) is x); [true], [false] and
    [[object Object]] are no numeric literals. *)
Fixpoint textIsNumericZero (v : value) : bool :=
  match v with
  | VNull => false
  | VBool _ => false
  | VNumber x => isZero x
  | VString s => StringToNumberIsZero s
  | VObject _ => false
  | VArray [] => true
  | VArray [item] =>
      match item with
      | VNull => true
      | _ => textIsNumericZero item
      end
  | VArray (_ :: _ :: _) => false
  end.

(** *** The comparison [v == false] (IsLooselyEqual)

    [false] becomes the number 0; [null] equals only [null] and [undefined];
    a string is compared through StringToNumber; an object or array through
    ToPrimitive, whose result is a string. *)
Definition looseEqFalse (v : value) : result bool :=
  match v with
  | VNull => Ok false
  | VBool b => Ok (negb b)
  | VNumber x => Ok (isZero x)
  | VString s => Ok (StringToNumberIsZero s)
  | VArray _ | VObject _ =>
      if toStringThrows v then Throw else Ok (textIsNumericZero v)
  end.

(** *** What Vue's reactivity makes of a parsed body

    [userData] is a [ref]: its setter, and the proxy it hands out for an
    object, steer by marker properties ([__v_isShallow], [__v_isReadonly],
    [__v_raw], [__v_skip], [__v_isRef]), and a parsed body can have
    properties of these names.  The definitions follow Vue 3.5. *)

(** [!!(v && v[k])] for a marker [k]: only an object can have a property of
    such a name. *)
Definition marked (k : string) (v : value) : bool :=
  match v with
  | VObject props =>
      match getOwn k props with
      | Some m => truthy m
      | None => false
      end
  | _ => false
  end.

(** [toRaw(v)]:
    [const raw = v && v["__v_raw"]; return raw ? toRaw(raw) : v]. *)
Fixpoint toRaw (v : value) : value :=
  match v with
  | VObject props =>
      (fix rawOf (l : list (string * value)) : value :=
         match l with
         | [] => v
         | (k, raw) :: rest =>
             if String.eqb "__v_raw" k
             then (if truthy raw then toRaw raw else v)
             else rawOf rest
         end) props
  | _ => v
  end.

(** The setter of a ref:
    [const useDirectValue = this.__v_isShallow || isShallow(newValue)
       || isReadonly(newValue);
     newValue = useDirectValue ? newValue : toRaw(newValue);
     if (hasChanged(newValue, oldValue)) {
       this._rawValue = newValue;
       this._value = useDirectValue ? newValue : toReactive(newValue); ... }].
    [userData] is no shallow ref.  [storedValue v] is [_rawValue] after the
    assignment of [v]; where it has not changed, it is what was there. *)
Definition useDirectValue (v : value) : bool :=
  marked "__v_isShallow" v || marked "__v_isReadonly" v.

Definition storedValue (v : value) : value :=
  if useDirectValue v then v else toRaw v.

(** Whether the ref hands out a reactive proxy of the stored value.
    [toReactive] wraps an object or an array, unless it is marked readonly
    or to be skipped; a value stored directly is not wrapped.  (A stored
    value marked shallow was stored directly, or it was taken out of a
    [__v_raw] member and then wrapped; it is taken as not wrapped here.  No
    text depends on it: see [interpolate_either_way].) *)
Definition isProxied (u : value) : bool :=
  match u with
  | VObject _ | VArray _ =>
      negb (marked "__v_isShallow" u || marked "__v_isReadonly" u
            || marked "__v_skip" u)
  | _ => false
  end.

(** [isRef(r)]: [r ? r["__v_isRef"] === true : false]; and [r.value]. *)
Definition isRef (v : value) : bool :=
  match v with
  | VObject props =>
      match getOwn "__v_isRef" props with
      | Some (VBool true) => true
      | _ => false
      end
  | _ => false
  end.

Definition refValue (v : value) : option value :=
  match v with
  | VObject props => getOwn "value" props
  | _ => None
  end.

(** The get trap of the reactive proxy, for a key that is no array index:
    [if (isRef(res)) return res.value].  (A member that is an object and no
    ref is handed out in a proxy of its own; the proxy is not told apart
    from its target here.) *)
Definition unwrapRef (res : option value) : option value :=
  match res with
  | Some m => if isRef m then refValue m else res
  | None => None
  end.

(** *** Member access and interpolation *)

(** The three members the template reads.  None of them is defined on a
    built-in prototype, so only an object's own property can provide one. *)
Inductive Field : Type := displayName | userPrincipalName | mail.

Definition fieldName (f : Field) : string :=
  match f with
  | displayName => "displayName"
  | userPrincipalName => "userPrincipalName"
  | mail => "mail"
  end.

(** [v.f], read through the reactive proxy or from the value itself: [None]
    is [undefined]; reading a member of [null] raises. *)
Definition getMember (proxied : bool) (v : value) (f : Field)
  : result (option value) :=
  match v with
  | VNull => Throw
  | VObject props =>
      let res := getOwn (fieldName f) props in
      Ok (if proxied then unwrapRef res else res)
  | _ => Ok None
  end.

(** The text of an interpolation.  Vue's [toDisplayString] returns a string
    as it is and the empty string for [null] and [undefined]; for an object
    marked as a ref it returns the text of its [value]; any other value is
    serialised ([JSON.stringify] or [String]), which is kept symbolic. *)
Inductive display : Type :=
| Txt (s : string)
| Stringified (v : value).

Fixpoint displayOf (v : value) : display :=
  match v with
  | VNull => Txt ""
  | VString s => Txt s
  | VObject props =>
      if isRef v
      then (fix valueText (l : list (string * value)) : display :=
              match l with
              | [] => Txt ""
              | (k, m) :: rest =>
                  if String.eqb "value" k then displayOf m
                  else valueText rest
              end) props
      else Stringified v
  | _ => Stringified v
  end.

Definition toDisplayString (o : option value) : display :=
  match o with
  | None => Txt ""
  | Some v => displayOf v
  end.

End JS.

(** ** Rendered trees and click dispatch *)
Module Dom.
Import JS.

(** The one statement a template handler executes:
    [showUserOptions = true]. *)
Inductive Handler : Type := AssignShowUserOptionsTrue.

(** A [@click] binding: the [.stop] modifier and the handler, if any. *)
Record ClickListener : Type := {
  stop : bool;
  handler : option Handler
}.

(** Nodes of a rendered tree.  A component node ([RouterLink], [RouterView],
    [Forbidden]) stands for whatever that component renders around its slot.
    It binds no listener of this component and is taken to let a click
    bubble ([RouterLink] prevents the default action of a click on it and
    does not stop its propagation). *)
Inductive VNode : Type :=
| Element (tag : string) (attrs : list (string * string))
          (onClick : option ClickListener) (children : list VNode)
| Component (name : string) (props : list (string * string))
            (slot : list VNode)
| Text (d : display).

Definition childrenOf (n : VNode) : list VNode :=
  match n with
  | Element _ _ _ cs => cs
  | Component _ _ cs => cs
  | Text _ => []
  end.

Definition onClickOf (n : VNode) : option ClickListener :=
  match n with
  | Element _ _ l _ => l
  | _ => None
  end.

Definition attrsOf (n : VNode) : list (string * string) :=
  match n with
  | Element _ a _ _ => a
  | Component _ a _ => a
  | Text _ => []
  end.

Fixpoint lookup (k : string) (l : list (string * string)) : option string :=
  match l with
  | [] => None
  | (k', v) :: rest => if String.eqb k k' then Some v else lookup k rest
  end.

Definition attrIs (k v : string) (n : VNode) : bool :=
  match lookup k (attrsOf n) with
  | Some v' => String.eqb v v'
  | None => false
  end.

Definition hasClass (c : string) (n : VNode) : bool := attrIs "class" c n.

Definition isElement (t : string) (n : VNode) : bool :=
  match n with
  | Element t' _ _ _ => String.eqb t t'
  | _ => false
  end.

(** [<RouterLink>] and [<router-link>] name the same component. *)
Definition isRouterLink (n : VNode) : bool :=
  match n with
  | Component c _ _ => String.eqb c "RouterLink" || String.eqb c "router-link"
  | _ => false
  end.

(** A node and everything below it, in document order. *)
Fixpoint nodes (n : VNode) : list VNode :=
  n :: match n with
       | Element _ _ _ cs => flat_map nodes cs
       | Component _ _ cs => flat_map nodes cs
       | Text _ => []
       end.

Definition texts (n : VNode) : list display :=
  flat_map (fun m => match m with Text d => [d] | _ => [] end) (nodes n).

(** The node at a path of child indices, with its ancestors: the target
    first, the root last (the order in which a click bubbles). *)
Fixpoint chainFrom (n : VNode) (path : list nat) (above : list VNode)
  : option (list VNode) :=
  match path with
  | [] => Some (n :: above)
  | i :: rest =>
      match nth_error (childrenOf n) i with
      | Some c => chainFrom c rest (n :: above)
      | None => None
      end
  end.

Definition chainTo (root : VNode) (path : list nat) : option (list VNode) :=
  chainFrom root path [].

End Dom.

Import JS Dom.

(** ** The component's script *)

(** What [fetch] resolves with: the status, and the value [res.json()]
    resolves with ([None] when it rejects: the body is not JSON or cannot be
    read). *)
Record Response : Type := {
  status : N;
  json : option value
}.

(** [res.ok]: the status is in the range 200-299. *)
Definition ok (res : Response) : bool :=
  (200 <=? status res)%N && (status res <=? 299)%N.

(** Where the [async] callback given to [onMounted] stands: not yet called,
    suspended at [await fetch("/api/auth/me")], suspended at
    [await res.json()], run to its end, or ended by a rejection. *)
Inductive Task : Type :=
| NotStarted
| AwaitingFetch
| AwaitingJson (res : Response)
| Completed
| Rejected.

(** The two reactive cells ([userData] is the value the ref has stored), the
    mount hook's progress, the number of click
    listeners the component has added to [document.body], and whether the
    component is mounted. *)
Record State : Type := {
  userData : value;
  showUserOptions : bool;
  task : Task;
  bodyListeners : nat;
  mounted : bool
}.

(** [ref(null)], [ref(false)]; nothing has run yet. *)
Definition init : State := {|
  userData := VNull;
  showUserOptions := false;
  task := NotStarted;
  bodyListeners := 0;
  mounted := false
|}.

(** [userData.value = v]: the ref's setter. *)
Definition setUserData (v : value) (s : State) : State :=
  {| userData := storedValue v; showUserOptions := showUserOptions s;
     task := task s; bodyListeners := bodyListeners s; mounted := mounted s |}.

Definition setShowUserOptions (b : bool) (s : State) : State :=
  {| userData := userData s; showUserOptions := b; task := task s;
     bodyListeners := bodyListeners s; mounted := mounted s |}.

Definition setTask (t : Task) (s : State) : State :=
  {| userData := userData s; showUserOptions := showUserOptions s; task := t;
     bodyListeners := bodyListeners s; mounted := mounted s |}.

Definition setMounted (b : bool) (s : State) : State :=
  {| userData := userData s; showUserOptions := showUserOptions s;
     task := task s; bodyListeners := bodyListeners s; mounted := b |}.

(** [document.body.addEventListener("click", () => { ... })]: the arrow
    function is a new one at each call, so each call adds a listener. *)
Definition addBodyListener (s : State) : State :=
  {| userData := userData s; showUserOptions := showUserOptions s;
     task := task s; bodyListeners := S (bodyListeners s);
     mounted := mounted s |}.

(** The body of that listener: [showUserOptions.value = false]. *)
Definition bodyListener (s : State) : State := setShowUserOptions false s.

(** [onMounted(async () => { const res = await fetch("/api/auth/me"); ...]:
    the callback runs up to its first [await]. *)
Definition onMounted (s : State) : State := setTask AwaitingFetch s.

(** The mount hook from [await fetch] on, for a fetch that resolved with
    [res].  With [res.ok] it suspends again at [await res.json()]; otherwise
    it assigns [false] and adds the listener in the same turn. *)
Definition onMountedAfterFetch (res : Response) (s : State) : State :=
  if ok res then setTask (AwaitingJson res) s
  else setTask Completed (addBodyListener (setUserData (VBool false) s)).

(** The mount hook from [await res.json()] on. *)
Definition onMountedAfterJson (res : Response) (s : State) : State :=
  match json res with
  | Some v => setTask Completed (addBodyListener (setUserData v s))
  | None => setTask Rejected s
  end.

(** ** The component's template *)

Definition el (tag : string) (attrs : list (string * string))
  (children : list VNode) : VNode :=
  Element tag attrs None children.

Definition forbiddenView : VNode := Component "Forbidden" [] [].

Definition navEntry (title to icon name : string) : VNode :=
  Component "RouterLink" [("title", title); ("to", to)]
    [ el "span" [("class", "material-symbols-rounded")] [Text (Txt icon)];
      el "span" [("class", "name")] [Text (Txt name)] ].

Definition navigation : VNode :=
  el "nav" []
    [ navEntry "Announcements" "/announcements" "campaign" "Announcements";
      navEntry "Manage Discord Users" "/discord/users" "group" "Discord Users";
      navEntry "Promotion Schedule" "/promotion-schedule" " calendar_month "
        "Promotion Schedule" ].

Definition signOutLink : VNode :=
  el "a" [("href", "/api/auth/signout")]
    [ el "span" [] [Text (Txt "Sign out")];
      el "span" [("class", "material-symbols-rounded")] [Text (Txt "logout")] ].

(** [<div @click.stop class="options" v-if="showUserOptions">], given the
    texts of its two interpolations. *)
Definition optionsPopover (upn m : display) : VNode :=
  Element "div" [("class", "options")]
    (Some {| stop := true; handler := None |})
    [ el "div" [("class", "action")] [signOutLink];
      el "div" [("class", "data")]
        [ el "h2" [] [Text upn];
          el "p" [] [Text m] ] ].

(** [<div @click.stop="showUserOptions = true" class="user">], given the
    text of its interpolation and the popover, if shown. *)
Definition userBadge (dn : display) (popover : list VNode) : VNode :=
  Element "div" [("class", "user")]
    (Some {| stop := true; handler := Some AssignShowUserOptionsTrue |})
    (el "span" [] [Text dn] :: popover).

(** [<div id="body" v-else-if="userData">] around the badge. *)
Definition shell (badge : VNode) : VNode :=
  el "div" [("id", "body")]
    [ el "aside" []
        [ Component "router-link" [("to", "/")]
            [ el "img" [("alt", "Stair Logo"); ("class", "logo");
                        ("src", "/logo/pr.svg"); ("height", "80")] [] ];
          navigation;
          badge ];
      el "div" [("id", "container")] [Component "RouterView" [] []] ].

(** [{{ userData.f }}], for [u] the value the ref has stored. *)
Definition interpolate (u : value) (f : Field) : result display :=
  bind (getMember (isProxied u) u f) (fun o => Ok (toDisplayString o)).

(** The shell branch with its expressions evaluated in template order. *)
Definition renderShell (u : value) (show : bool) : result VNode :=
  bind (interpolate u displayName) (fun dn =>
  bind (if show
        then bind (interpolate u userPrincipalName) (fun upn =>
             bind (interpolate u mail) (fun m =>
             Ok [optionsPopover upn m]))
        else Ok []) (fun popover =>
  Ok (shell (userBadge dn popover)))).

(** The render function: [None] is the empty output (Vue leaves a comment
    placeholder when no branch of the chain is taken). *)
Definition render (s : State) : result (option VNode) :=
  bind (looseEqFalse (userData s)) (fun forbidden =>
  if forbidden then Ok (Some forbiddenView)
  else if truthy (userData s)
       then bind (renderShell (userData s) (showUserOptions s))
                 (fun t => Ok (Some t))
       else Ok None).

(** What the document shows of the component: nothing before mount and after
    unmount; a render that raises leaves the placeholder in place. *)
Definition dom (s : State) : option VNode :=
  if mounted s
  then match render s with
       | Ok t => t
       | Throw => None
       end
  else None.

(** ** Clicks *)

(** The target of a click: a node the component rendered, given by its path
    from the component's root node; any other node of [document.body] (the
    body element itself, the mount container, ...); or the document's root
    element, outside the body. *)
Inductive Target : Type :=
| Inside (path : list nat)
| Outside
| RootElement.

Definition runHandler (h : Handler) (s : State) : State :=
  match h with
  | AssignShowUserOptionsTrue => setShowUserOptions true s
  end.

(** The click bubbles through the chain, target first.  A listener with
    [.stop] calls [stopPropagation] and then its handler.  The result says
    whether the click still propagates above the component's root. *)
Fixpoint bubble (chain : list VNode) (s : State) : State * bool :=
  match chain with
  | [] => (s, true)
  | n :: above =>
      match onClickOf n with
      | Some l =>
          let s' := match handler l with
                    | Some h => runHandler h s
                    | None => s
                    end in
          if stop l then (s', false) else bubble above s'
      | None => bubble above s
      end
  end.

(** Every listener added to [document.body] runs when the click gets there. *)
Definition fireBodyListeners (s : State) : State :=
  Nat.iter (bodyListeners s) bodyListener s.

Record Outcome : Type := {
  after : State;
  reachedBody : bool
}.

(** A click on the root element bubbles to the document and the window,
    where the component has no listener. *)
Definition dispatch (s : State) (t : Target) : option Outcome :=
  match t with
  | Outside => Some {| after := fireBodyListeners s; reachedBody := true |}
  | RootElement => Some {| after := s; reachedBody := false |}
  | Inside path =>
      match dom s with
      | Some root =>
          match chainTo root path with
          | Some chain =>
              let '(s', propagates) := bubble chain s in
              Some (if propagates
                    then {| after := fireBodyListeners s';
                            reachedBody := true |}
                    else {| after := s'; reachedBody := false |})
          | None => None
          end
      | None => None
      end
  end.

(** ** The component's life as a transition system

    The component is mounted once (setup and first render, then the mount
    hook); the fetch and the body parse settle when the network decides;
    clicks come at any time; the component may be unmounted, which stops
    neither the mount hook nor the listeners on [document.body]. *)
Inductive Event : Type :=
| Mount
| FetchResolved (res : Response)
| FetchRejected
| JsonSettled
| Click (t : Target)
| Unmount.

(** [None]: the event cannot happen in that state. *)
Definition step (s : State) (e : Event) : option State :=
  match e with
  | Mount =>
      match task s with
      | NotStarted => Some (onMounted (setMounted true s))
      | _ => None
      end
  | FetchResolved res =>
      match task s with
      | AwaitingFetch => Some (onMountedAfterFetch res s)
      | _ => None
      end
  | FetchRejected =>
      match task s with
      | AwaitingFetch => Some (setTask Rejected s)
      | _ => None
      end
  | JsonSettled =>
      match task s with
      | AwaitingJson res => Some (onMountedAfterJson res s)
      | _ => None
      end
  | Click t =>
      match dispatch s t with
      | Some o => Some (after o)
      | None => None
      end
  | Unmount =>
      if mounted s then Some (setMounted false s) else None
  end.

Fixpoint run (s : State) (evs : list Event) : option State :=
  match evs with
  | [] => Some s
  | e :: rest =>
      match step s e with
      | Some s' => run s' rest
      | None => None
      end
  end.

Definition reachable (s : State) : Prop := exists evs, run init evs = Some s.

(** ** The authentication state read off [userData] *)
Inductive AuthState : Type := Unknown | Absent | Present.

Definition authState (s : State) : AuthState :=
  match userData s with
  | VNull => Unknown
  | VBool false => Absent
  | _ => Present
  end.




(** ** Reading rendered trees *)

(** The shell is the tree whose root is [<div id="body">]. *)
Definition isShell (root : VNode) : bool :=
  isElement "div" root && attrIs "id" "body" root.

(** The navigation entries: the router links under a [<nav>] element. *)
Definition navEntries (root : VNode) : list VNode :=
  flat_map (fun n => if isElement "nav" n
                     then filter isRouterLink (nodes n)
                     else [])
           (nodes root).

Definition linkTarget (n : VNode) : option string := lookup "to" (attrsOf n).

Definition routerLinks (root : VNode) : list VNode :=
  filter isRouterLink (nodes root).

(** The nodes that link to the sign-out endpoint. *)
Definition signOutEndpoint : string := "/api/auth/signout".

Definition linksToSignOut (n : VNode) : bool :=
  attrIs "href" signOutEndpoint n || attrIs "to" signOutEndpoint n.

Definition signOutNodes (root : VNode) : list VNode :=
  filter linksToSignOut (nodes root).

(** Where a click lands, as the template's two listeners and the body's
    listener see it. *)
Inductive Region : Type :=
| UserBadge
| OptionsPopover
| Elsewhere
| OutsideBody.

Definition regionOf (chain : list VNode) : Region :=
  if existsb (hasClass "options") chain then OptionsPopover
  else if existsb (hasClass "user") chain then UserBadge
  else Elsewhere.

Definition region (s : State) (t : Target) : option Region :=
  match t with
  | Outside => Some Elsewhere
  | RootElement => Some OutsideBody
  | Inside path =>
      match dom s with
      | Some root =>
          match chainTo root path with
          | Some chain => Some (regionOf chain)
          | None => None
          end
      | None => None
      end
  end.



(** ** Session bodies

    A session body is a JSON object with the session's fields
    ([displayName], [userPrincipalName], [mail]), each a string, and no
    other property. *)
Definition isSessionField (k : string) : bool :=
  String.eqb k "displayName" || String.eqb k "userPrincipalName"
  || String.eqb k "mail".

Definition stringMember (f : Field) (props : list (string * value))
  : option string :=
  match getOwn (fieldName f) props with
  | Some (VString s) => Some s
  | _ => None
  end.

Definition isSome {A} (o : option A) : bool :=
  match o with Some _ => true | None => false end.


Definition sessionDisplayName (v : value) : option string :=
  match v with
  | VObject props => stringMember displayName props
  | _ => None
  end.

(** A body that holds a session: a JSON object with at least the session's
    fields, each a string. *)
Definition holdsSession (v : value) : bool :=
  match v with
  | VObject props =>
      isSome (stringMember displayName props)
      && isSome (stringMember userPrincipalName props)
      && isSome (stringMember mail props)
  | _ => false
  end.

(** The own member [f] of a stored value where it is plain: a string, or
    nothing ([undefined] or [null]), which shows as the empty text. *)
Definition plainMember (u : value) (f : Field) : option string :=
  match u with
  | VNull => None
  | VObject props =>
      match getOwn (fieldName f) props with
      | None | Some VNull => Some ""
      | Some (VString str) => Some str
      | Some _ => None
      end
  | _ => Some ""
  end.

(** ** Definitions for the proofs *)

(** The text of [{{ u.f }}] and the tree of the shell branch for a [u] other
    than [null], where no member access raises. *)
Definition memberText (u : value) (f : Field) : display :=
  toDisplayString
    (match u with
     | VObject props => getOwn (fieldName f) props
     | _ => None
     end).

Definition shellOf (u : value) (show : bool) : VNode :=
  shell (userBadge (memberText u displayName)
           (if show
            then [optionsPopover (memberText u userPrincipalName)
                                 (memberText u mail)]
            else [])).

(** Two states that differ at most in [showUserOptions]. *)
Definition sameButShow (s s' : State) : Prop :=
  userData s' = userData s /\ task s' = task s
  /\ bodyListeners s' = bodyListeners s /\ mounted s' = mounted s.

(** The invariant of the reachable states: until the mount hook has run to
    its end nothing was stored, the flag is off and no listener was added;
    at its end exactly one listener was added; the flag is on only where the
    shell branch is taken; the component is not mounted before the hook
    starts. *)
Definition invariant (s : State) : Prop :=
  (task s <> Completed ->
   userData s = VNull /\ showUserOptions s = false /\ bodyListeners s = 0)
  /\ (task s = Completed -> bodyListeners s = 1)
  /\ (showUserOptions s = true ->
      looseEqFalse (userData s) = Ok false /\ truthy (userData s) = true)
  /\ (task s = NotStarted -> mounted s = false).

(** Whether the fetch has settled. *)
Definition fetchSettled (s : State) : bool :=
  match task s with
  | NotStarted | AwaitingFetch => false
  | _ => true
  end.

(** ** Scenarios *)

Definition exampleSession : value :=
  VObject [ ("displayName", VString "A. User");
            ("userPrincipalName", VString "auser@example.com");
            ("mail", VString "auser@example.com") ].

Definition exampleSuccess : Response :=
  {| status := 200; json := Some exampleSession |}.

Definition exampleFailure : Response :=
  {| status := 403; json := None |}.

(** Mounted, the fetch pending. *)
Definition fetching : State := onMounted (setMounted true init).

(** Signed in, the popover closed, then opened by a click on the badge. *)
Definition signedIn : State :=
  {| userData := exampleSession; showUserOptions := false; task := Completed;
     bodyListeners := 1; mounted := true |}.

Definition optionsOpen : State := setShowUserOptions true signedIn.

(** A click that stopped below the body with the popover open, and one that
    reached the body and closed it. *)
Definition stoppedOpen : Outcome :=
  {| after := optionsOpen; reachedBody := false |}.

Definition dismissed : Outcome :=
  {| after := signedIn; reachedBody := true |}.

(** ** Further scenarios *)

(** A success status with a body [res.json()] cannot parse, and one whose
    body is the JSON text [null]. *)
Definition exampleUnreadable : Response :=
  {| status := 200; json := None |}.

Definition exampleNullBody : Response :=
  {| status := 200; json := Some VNull |}.

(** A session body that also has a property named [toString]. *)
Definition shadowedSession : value :=
  VObject [ ("displayName", VString "A. User");
            ("userPrincipalName", VString "auser@example.com");
            ("mail", VString "auser@example.com");
            ("toString", VString "") ].

Definition exampleShadowed : Response :=
  {| status := 200; json := Some shadowedSession |}.

(** A session body that also has a property named [__v_raw], an object. *)
Definition wrappedSession : value :=
  VObject [ ("displayName", VString "A. User");
            ("userPrincipalName", VString "auser@example.com");
            ("mail", VString "auser@example.com");
            ("__v_raw", VObject [("displayName", VString "Someone Else")]) ].

Definition exampleWrapped : Response :=
  {| status := 200; json := Some wrappedSession |}.

(** The fetch resolved with status 403. *)
Definition refused : State :=
  {| userData := VBool false; showUserOptions := false; task := Completed;
     bodyListeners := 1; mounted := true |}.

(** Signed in, the popover opened, then the component unmounted. *)
Definition leftOpen : State := setMounted false optionsOpen.

(** A stored object that has no [displayName]. *)
Definition nameless : State :=
  {| userData := VObject [("mail", VString "auser@example.com")];
     showUserOptions := false; task := Completed;
     bodyListeners := 1; mounted := true |}.

(** The nodes that host the routed view: [<RouterView />]. *)
Definition isRouterView (n : VNode) : bool :=
  match n with
  | Component c _ _ => String.eqb c "RouterView"
  | _ => false
  end.

Definition routerViews (root : VNode) : list VNode :=
  filter isRouterView (nodes root).

(** The shell around a badge whose three interpolations are empty. *)
Definition anonymousShell (show : bool) : VNode :=
  shell (userBadge (Txt "")
           (if show then [optionsPopover (Txt "") (Txt "")] else [])).

(** ** Tactics *)

(** Case analysis on a path into a tree that is known: a hypothesis
    [chainFrom tree path above = Some chain] is turned into one goal per node
    of the tree. *)
Ltac each_node :=
  repeat match goal with
         | H : chainFrom _ ?p _ = Some _ |- _ =>
             destruct p as [|[|[|[|[|?]]]] ?]; cbn in H; try discriminate H
         end.

(** ** Basic facts *)

Lemma truthy_not_null : forall u, truthy u = true -> u <> VNull.
Proof. intros u H E; subst u; discriminate H. Qed.

(** *** What the ref stores and what the template reads *)

Lemma toRaw_object :
  forall props,
    toRaw (VObject props)
    = match getOwn "__v_raw" props with
      | Some raw => if truthy raw then toRaw raw else VObject props
      | None => VObject props
      end.
Proof.
  intros props. cbn [toRaw]. generalize (VObject props) as v.
  intros v. induction props as [|[k raw] rest IH].
  - reflexivity.
  - cbn [getOwn]. destruct (String.eqb "__v_raw" k); [reflexivity | exact IH].
Qed.

Lemma toRaw_unmarked :
  forall v, marked "__v_raw" v = false -> toRaw v = v.
Proof.
  intros v H. destruct v as [| | | | |props]; try reflexivity.
  rewrite toRaw_object. unfold marked in H.
  destruct (getOwn "__v_raw" props) as [raw|]; [rewrite H|]; reflexivity.
Qed.

(** A body without a truthy [__v_raw] is stored as it is. *)
Lemma storedValue_unmarked :
  forall v, marked "__v_raw" v = false -> storedValue v = v.
Proof.
  intros v H. unfold storedValue.
  destruct (useDirectValue v); [reflexivity | apply toRaw_unmarked; exact H].
Qed.

Lemma displayOf_object :
  forall props,
    displayOf (VObject props)
    = if isRef (VObject props)
      then toDisplayString (getOwn "value" props)
      else Stringified (VObject props).
Proof.
  intros props. cbn [displayOf].
  destruct (isRef (VObject props)); [|reflexivity].
  induction props as [|[k m] rest IH].
  - reflexivity.
  - cbn [getOwn]. destruct (String.eqb "value" k); [reflexivity | exact IH].
Qed.

(** The proxy's unwrapping of a ref is one [toDisplayString] does as well. *)
Lemma toDisplayString_unwrapRef :
  forall res, toDisplayString (unwrapRef res) = toDisplayString res.
Proof.
  intros [m|]; [|reflexivity]. unfold unwrapRef.
  destruct (isRef m) eqn:E; [|reflexivity].
  destruct m as [| | | | |props]; try discriminate E.
  cbn [toDisplayString]. rewrite displayOf_object, E. reflexivity.
Qed.

(** The text of an interpolation is the same whether the member is read
    through the reactive proxy or from the stored value itself. *)
Lemma interpolate_either_way :
  forall proxied u f,
    bind (getMember proxied u f) (fun o => Ok (toDisplayString o))
    = interpolate u f.
Proof.
  intros proxied u f. unfold interpolate.
  destruct u as [| | | | |props]; try reflexivity.
  cbn [getMember bind].
  destruct proxied, (isProxied (VObject props));
    rewrite ?toDisplayString_unwrapRef; reflexivity.
Qed.

Lemma interpolate_eq :
  forall u f, u <> VNull -> interpolate u f = Ok (memberText u f).
Proof.
  intros u f Hu. unfold interpolate, memberText.
  destruct u as [| | | | |props]; try congruence; try reflexivity.
  cbn [getMember bind].
  destruct (isProxied (VObject props));
    rewrite ?toDisplayString_unwrapRef; reflexivity.
Qed.

Lemma renderShell_eq :
  forall u show, u <> VNull -> renderShell u show = Ok (shellOf u show).
Proof.
  intros u show Hu. unfold renderShell.
  rewrite !(interpolate_eq u) by exact Hu.
  destruct show; reflexivity.
Qed.

Lemma render_null :
  forall s, userData s = VNull -> render s = Ok None.
Proof. intros s H; unfold render; rewrite H; reflexivity. Qed.

Lemma render_false :
  forall s, userData s = VBool false -> render s = Ok (Some forbiddenView).
Proof. intros s H; unfold render; rewrite H; reflexivity. Qed.

Lemma render_shell :
  forall s,
    looseEqFalse (userData s) = Ok false -> truthy (userData s) = true ->
    render s = Ok (Some (shellOf (userData s) (showUserOptions s))).
Proof.
  intros s Hf Ht. unfold render. rewrite Hf; simpl. rewrite Ht.
  rewrite renderShell_eq by (apply truthy_not_null; exact Ht).
  reflexivity.
Qed.

(** The render function yields the restricted view, the shell, or nothing. *)
Lemma render_some :
  forall s root,
    render s = Ok (Some root) ->
    (looseEqFalse (userData s) = Ok true /\ root = forbiddenView)
    \/ (looseEqFalse (userData s) = Ok false /\ truthy (userData s) = true
        /\ root = shellOf (userData s) (showUserOptions s)).
Proof.
  intros s root. unfold render.
  destruct (looseEqFalse (userData s)) as [[|]|]; simpl; try discriminate.
  - intros H; injection H as <-. left; split; reflexivity.
  - destruct (truthy (userData s)) eqn:Ht; try discriminate.
    rewrite renderShell_eq by (apply truthy_not_null; exact Ht).
    simpl. intros H; injection H as <-. right; repeat split; reflexivity.
Qed.

Lemma render_isShell :
  forall s root,
    render s = Ok (Some root) -> isShell root = true ->
    looseEqFalse (userData s) = Ok false /\ truthy (userData s) = true
    /\ root = shellOf (userData s) (showUserOptions s).
Proof.
  intros s root Hr Hs.
  destruct (render_some s root Hr) as [[_ ->]|H]; [discriminate Hs | exact H].
Qed.

Lemma dom_render :
  forall s root, dom s = Some root ->
    mounted s = true /\ render s = Ok (Some root).
Proof.
  intros s root. unfold dom.
  destruct (mounted s); try discriminate.
  destruct (render s) as [t|]; try discriminate.
  intros ->; split; reflexivity.
Qed.

(** An object renders the shell unless it has a [toString] of its own. *)
Lemma render_object :
  forall s props,
    userData s = VObject props -> hasOwn "toString" props = false ->
    render s = Ok (Some (shellOf (userData s) (showUserOptions s))).
Proof.
  intros s props Hu Hn. apply render_shell; rewrite Hu; simpl.
  - rewrite Hn; reflexivity.
  - reflexivity.
Qed.

Lemma session_fields_no_toString :
  forall props,
    forallb (fun kv => isSessionField (fst kv)) props = true ->
    hasOwn "toString" props = false.
Proof.
  unfold hasOwn. induction props as [|[k v] rest IH]; intros H.
  - reflexivity.
  - cbn [forallb fst] in H. apply andb_prop in H as [Hk Hrest].
    cbn [getOwn]. destruct (String.eqb "toString" k) eqn:E.
    + apply String.eqb_eq in E; subst k; discriminate Hk.
    + apply IH; exact Hrest.
Qed.



(** The shell shows the text of [{{ userData.displayName }}]. *)
Lemma shellOf_shows_displayName :
  forall u show, In (memberText u displayName) (texts (shellOf u show)).
Proof. intros u show; destruct show; simpl; auto 10. Qed.

(** A success response whose body parses to an object without a [toString]
    of its own and without a truthy [__v_raw], whatever its other
    properties: the object is stored and the shell is rendered. *)
Lemma success_with_object_body :
  forall s res props,
    task s = AwaitingFetch -> ok res = true ->
    json res = Some (VObject props) -> hasOwn "toString" props = false ->
    marked "__v_raw" (VObject props) = false ->
    exists s',
      run s [FetchResolved res; JsonSettled] = Some s'
      /\ userData s' = VObject props
      /\ render s'
         = Ok (Some (shellOf (VObject props) (showUserOptions s))).
Proof.
  intros s res props Ht Hok Hj Hn Hraw.
  pose proof (storedValue_unmarked _ Hraw) as Hst.
  set (s' := setTask Completed (addBodyListener (setUserData (VObject props)
                                  (setTask (AwaitingJson res) s)))).
  assert (Hu : userData s' = VObject props) by exact Hst.
  exists s'. split; [|split].
  - simpl. rewrite Ht. unfold onMountedAfterFetch; rewrite Hok. simpl.
    unfold onMountedAfterJson; rewrite Hj. reflexivity.
  - exact Hu.
  - rewrite <- Hu at 1. exact (render_object s' props Hu Hn).
Qed.

(** *** What a click leaves alone *)

Lemma sameButShow_refl : forall s, sameButShow s s.
Proof. intros s; repeat split. Qed.

Lemma sameButShow_trans :
  forall a b c, sameButShow a b -> sameButShow b c -> sameButShow a c.
Proof.
  unfold sameButShow; intros a b c (H1 & H2 & H3 & H4) (K1 & K2 & K3 & K4).
  repeat split; congruence.
Qed.

Lemma bubble_frame :
  forall chain s, sameButShow s (fst (bubble chain s)).
Proof.
  induction chain as [|n above IH]; intros s; simpl.
  - apply sameButShow_refl.
  - destruct (onClickOf n) as [[st [h|]]|]; simpl.
    + destruct h; destruct st; simpl.
      * repeat split.
      * eapply sameButShow_trans; [|apply IH]. repeat split.
    + destruct st; simpl; [apply sameButShow_refl | apply IH].
    + apply IH.
Qed.

Lemma iter_bodyListener_frame :
  forall n s, sameButShow s (Nat.iter n bodyListener s).
Proof.
  induction n as [|n IH]; intros s; simpl.
  - apply sameButShow_refl.
  - eapply sameButShow_trans; [apply IH|]. repeat split.
Qed.

Lemma fireBodyListeners_frame :
  forall s, sameButShow s (fireBodyListeners s).
Proof. intros s; apply iter_bodyListener_frame. Qed.

Lemma fireBodyListeners_show :
  forall s,
    showUserOptions (fireBodyListeners s)
    = match bodyListeners s with
      | O => showUserOptions s
      | S _ => false
      end.
Proof.
  intros s; unfold fireBodyListeners.
  destruct (bodyListeners s); reflexivity.
Qed.

Lemma dispatch_frame :
  forall s t o, dispatch s t = Some o -> sameButShow s (after o).
Proof.
  intros s [path| |] o; simpl.
  - destruct (dom s) as [root|]; try discriminate.
    destruct (chainTo root path) as [chain|]; try discriminate.
    pose proof (bubble_frame chain s) as Hb.
    destruct (bubble chain s) as [s' p]; simpl in Hb.
    intros H; injection H as <-.
    destruct p; simpl; [|exact Hb].
    eapply sameButShow_trans; [exact Hb | apply fireBodyListeners_frame].
  - intros H; injection H as <-; simpl. apply fireBodyListeners_frame.
  - intros H; injection H as <-; simpl. apply sameButShow_refl.
Qed.

(** A click inside the restricted view meets no listener of the component. *)
Lemma chainTo_forbiddenView :
  forall path chain,
    chainTo forbiddenView path = Some chain -> chain = [forbiddenView].
Proof.
  intros [|i rest] chain; unfold chainTo; simpl.
  - intros H; injection H as <-; reflexivity.
  - destruct i; discriminate.
Qed.

(** A click can turn the flag on only where the shell is rendered. *)
Lemma dispatch_show_true :
  forall s t o,
    dispatch s t = Some o -> showUserOptions (after o) = true ->
    showUserOptions s = true
    \/ (looseEqFalse (userData s) = Ok false /\ truthy (userData s) = true).
Proof.
  intros s [path| |] o; simpl.
  - destruct (dom s) as [root|] eqn:Hd; try discriminate.
    destruct (dom_render _ _ Hd) as [_ Hr].
    destruct (render_some _ _ Hr) as [[_ ->]|(Hf & Ht & _)].
    + destruct (chainTo forbiddenView path) as [chain|] eqn:Hc;
        try discriminate.
      apply chainTo_forbiddenView in Hc; subst chain; simpl.
      intros H; injection H as <-; simpl.
      rewrite fireBodyListeners_show.
      destruct (bodyListeners s); [left; assumption | discriminate].
    + intros _ _; right; split; assumption.
  - intros H; injection H as <-; simpl.
    rewrite fireBodyListeners_show.
    destruct (bodyListeners s); [left; assumption | discriminate].
  - intros H; injection H as <-; simpl. intros K; left; exact K.
Qed.

(** *** The invariant of the reachable states *)

Lemma invariant_init : invariant init.
Proof.
  unfold invariant; simpl; repeat split; intros; try discriminate; auto.
Qed.

Lemma step_invariant :
  forall s e s', invariant s -> step s e = Some s' -> invariant s'.
Proof.
  intros s e s' (H1 & H2 & H3 & H4) Hs.
  destruct e; simpl in Hs.
  - (* Mount *)
    destruct (task s) eqn:Ht; try discriminate.
    injection Hs as <-.
    destruct H1 as (Hu & Hsh & Hl); [discriminate|].
    unfold invariant; simpl. repeat split; intros; try discriminate; auto;
      congruence.
  - (* FetchResolved *)
    destruct (task s) eqn:Ht; try discriminate.
    injection Hs as <-.
    destruct H1 as (Hu & Hsh & Hl); [discriminate|].
    unfold onMountedAfterFetch. destruct (ok res); unfold invariant; simpl;
      repeat split; intros; try discriminate; auto; try congruence.
  - (* FetchRejected *)
    destruct (task s) eqn:Ht; try discriminate.
    injection Hs as <-.
    destruct H1 as (Hu & Hsh & Hl); [discriminate|].
    unfold invariant; simpl.
    repeat split; intros; try discriminate; auto; congruence.
  - (* JsonSettled *)
    destruct (task s) eqn:Ht; try discriminate.
    injection Hs as <-.
    destruct H1 as (Hu & Hsh & Hl); [discriminate|].
    unfold onMountedAfterJson. destruct (json res); unfold invariant; simpl;
      repeat split; intros; try discriminate; auto; try congruence.
  - (* Click *)
    destruct (dispatch s t) as [o|] eqn:Hd; try discriminate.
    injection Hs as <-.
    destruct (dispatch_frame _ _ _ Hd) as (Fu & Ft & Fl & Fm).
    pose proof (dispatch_show_true _ _ _ Hd) as Hshow.
    unfold invariant. rewrite Fu, Ft, Fl, Fm.
    repeat split; intros; auto.
    + apply H1; assumption.
    + destruct (showUserOptions (after o)) eqn:E; [|reflexivity].
      destruct (H1 H) as (Hu & Hsh & _).
      destruct (Hshow eq_refl) as [K|[_ K]]; [congruence|].
      rewrite Hu in K; discriminate K.
    + apply H1; assumption.
    + destruct (Hshow H) as [K|[K _]]; [apply H3; exact K | exact K].
    + destruct (Hshow H) as [K|[_ K]]; [apply H3; exact K | exact K].
  - (* Unmount *)
    destruct (mounted s) eqn:Hm; try discriminate.
    injection Hs as <-.
    unfold invariant; simpl. repeat split; intros; auto.
    + apply H1; assumption.
    + apply H1; assumption.
    + apply H1; assumption.
    + apply H3; assumption.
    + apply H3; assumption.
Qed.

Lemma run_invariant :
  forall evs s s', invariant s -> run s evs = Some s' -> invariant s'.
Proof.
  induction evs as [|e rest IH]; intros s s' Hi Hr; simpl in Hr.
  - injection Hr as <-; exact Hi.
  - destruct (step s e) as [s1|] eqn:Hs; try discriminate.
    eapply IH; [eapply step_invariant; eassumption | exact Hr].
Qed.

Lemma reachable_invariant : forall s, reachable s -> invariant s.
Proof.
  intros s [evs Hr]. eapply run_invariant; [apply invariant_init | exact Hr].
Qed.

Lemma invariant_not_completed :
  forall s, invariant s -> task s <> Completed ->
    userData s = VNull /\ showUserOptions s = false /\ bodyListeners s = 0.
Proof. intros s (H1 & _) Ht; apply H1; exact Ht. Qed.

Lemma completed_of_truthy :
  forall s, invariant s -> truthy (userData s) = true ->
    task s = Completed /\ bodyListeners s = 1.
Proof.
  intros s Hi Ht.
  assert (E : task s = Completed).
  { destruct (task s) eqn:E; try reflexivity;
      (destruct (invariant_not_completed s Hi) as (K & _);
       [rewrite E; discriminate | rewrite K in Ht; discriminate Ht]). }
  split; [exact E | apply Hi; exact E].
Qed.

Lemma run_app :
  forall evs1 evs2 s s1,
    run s evs1 = Some s1 -> run s (evs1 ++ evs2) = run s1 evs2.
Proof.
  induction evs1 as [|e rest IH]; intros evs2 s s1 H; simpl in *.
  - injection H as <-; reflexivity.
  - destruct (step s e) as [s'|]; try discriminate. apply IH; exact H.
Qed.

(** *** What no later event undoes *)

(** Once something is stored, nothing stores again. *)
Lemma step_userData_stable :
  forall s e s',
    invariant s -> userData s <> VNull -> step s e = Some s' ->
    userData s' = userData s /\ task s' = Completed.
Proof.
  intros s e s' (H1 & _) Hu Hs.
  assert (Ht : task s = Completed).
  { destruct (task s) eqn:E; try reflexivity;
      (destruct H1 as (K & _); [discriminate | contradiction]). }
  destruct e; simpl in Hs; rewrite ?Ht in Hs; try discriminate.
  - destruct (dispatch s t) as [o|] eqn:Hd; try discriminate.
    injection Hs as <-.
    destruct (dispatch_frame _ _ _ Hd) as (Fu & Ft & _).
    split; congruence.
  - destruct (mounted s); try discriminate.
    injection Hs as <-; simpl. split; [reflexivity | exact Ht].
Qed.

Lemma run_userData_stable :
  forall evs s s',
    invariant s -> userData s <> VNull -> run s evs = Some s' ->
    userData s' = userData s.
Proof.
  induction evs as [|e rest IH]; intros s s' Hi Hu Hr; simpl in Hr.
  - injection Hr as <-; reflexivity.
  - destruct (step s e) as [s1|] eqn:Hs; try discriminate.
    destruct (step_userData_stable _ _ _ Hi Hu Hs) as [E _].
    rewrite <- E. apply IH; [eapply step_invariant; eassumption | | exact Hr].
    rewrite E; exact Hu.
Qed.

(** With the mount hook at its end nothing is stored any more. *)
Lemma step_completed_stable :
  forall s e s',
    task s = Completed -> step s e = Some s' ->
    userData s' = userData s /\ task s' = Completed.
Proof.
  intros s e s' Ht Hs.
  destruct e; simpl in Hs; rewrite ?Ht in Hs; try discriminate.
  - destruct (dispatch s t) as [o|] eqn:Hd; try discriminate.
    injection Hs as <-.
    destruct (dispatch_frame _ _ _ Hd) as (Fu & Ft & _).
    split; congruence.
  - destruct (mounted s); try discriminate.
    injection Hs as <-; simpl. split; [reflexivity | exact Ht].
Qed.

Lemma run_completed_stable :
  forall evs s s',
    task s = Completed -> run s evs = Some s' ->
    userData s' = userData s /\ task s' = Completed.
Proof.
  induction evs as [|e rest IH]; intros s s' Ht Hr; simpl in Hr.
  - injection Hr as <-; split; [reflexivity | exact Ht].
  - destruct (step s e) as [s1|] eqn:Hs; try discriminate.
    destruct (step_completed_stable _ _ _ Ht Hs) as [E1 E2].
    destruct (IH _ _ E2 Hr) as [K1 K2]. split; congruence.
Qed.

(** A rejection ends the mount hook: nothing runs after it. *)
Lemma step_rejected_stable :
  forall s e s',
    task s = Rejected -> step s e = Some s' -> task s' = Rejected.
Proof.
  intros s e s' Ht Hs.
  destruct e; simpl in Hs; rewrite ?Ht in Hs; try discriminate.
  - destruct (dispatch s t) as [o|] eqn:Hd; try discriminate.
    injection Hs as <-.
    destruct (dispatch_frame _ _ _ Hd) as (_ & Ft & _). congruence.
  - destruct (mounted s); try discriminate.
    injection Hs as <-; exact Ht.
Qed.

Lemma run_rejected_stable :
  forall evs s s',
    task s = Rejected -> run s evs = Some s' -> task s' = Rejected.
Proof.
  induction evs as [|e rest IH]; intros s s' Ht Hr; simpl in Hr.
  - injection Hr as <-; exact Ht.
  - destruct (step s e) as [s1|] eqn:Hs; try discriminate.
    eapply IH; [eapply step_rejected_stable; eassumption | exact Hr].
Qed.

(** The mount hook never gets past a rejected fetch. *)
Lemma run_fetch_rejected :
  forall evs s s',
    run s evs = Some s' -> In FetchRejected evs -> task s' = Rejected.
Proof.
  induction evs as [|e rest IH]; intros s s' Hr Hin; simpl in *.
  - contradiction.
  - destruct (step s e) as [s1|] eqn:Hs; try discriminate.
    destruct Hin as [->|Hin].
    + eapply run_rejected_stable; [|exact Hr].
      simpl in Hs. destruct (task s); try discriminate.
      injection Hs as <-; reflexivity.
    + eapply IH; eassumption.
Qed.

Lemma step_bodyListeners_mono :
  forall s e s', step s e = Some s' -> bodyListeners s <= bodyListeners s'.
Proof.
  intros s e s' Hs. destruct e; simpl in Hs.
  - destruct (task s); try discriminate. injection Hs as <-; simpl; lia.
  - destruct (task s); try discriminate. injection Hs as <-.
    unfold onMountedAfterFetch; destruct (ok res); simpl; lia.
  - destruct (task s); try discriminate. injection Hs as <-; simpl; lia.
  - destruct (task s); try discriminate. injection Hs as <-.
    unfold onMountedAfterJson; destruct (json res); simpl; lia.
  - destruct (dispatch s t) as [o|] eqn:Hd; try discriminate.
    injection Hs as <-.
    destruct (dispatch_frame _ _ _ Hd) as (_ & _ & Fl & _). lia.
  - destruct (mounted s); try discriminate. injection Hs as <-; simpl; lia.
Qed.






(** The mount hook gets to its end only through a resolved fetch. *)
Lemma run_completed_fetch_resolved :
  forall evs s s',
    fetchSettled s = false -> run s evs = Some s' -> task s' = Completed ->
    exists res, In (FetchResolved res) evs.
Proof.
  induction evs as [|e rest IH]; intros s s' Hf Hr Ht; simpl in *.
  - injection Hr as <-. unfold fetchSettled in Hf.
    rewrite Ht in Hf; discriminate Hf.
  - destruct (step s e) as [s1|] eqn:Hs; try discriminate.
    assert (Hnext : fetchSettled s1 = false ->
                    exists res,
                      e = FetchResolved res \/ In (FetchResolved res) rest).
    { intros Hf1. destruct (IH s1 s' Hf1 Hr Ht) as [res Hin].
      exists res; right; exact Hin. }
    unfold fetchSettled in Hf.
    destruct e; simpl in Hs.
    + destruct (task s); try discriminate. injection Hs as <-.
      destruct Hnext as [res [E|Hin]]; [reflexivity | discriminate |].
      exists res; right; exact Hin.
    + exists res; left; reflexivity.
    + destruct (task s); try discriminate. injection Hs as <-.
      rewrite (run_rejected_stable rest (setTask Rejected s) s' eq_refl Hr)
        in Ht.
      discriminate Ht.
    + destruct (task s); discriminate.
    + destruct (dispatch s t) as [o|] eqn:Hd; try discriminate.
      injection Hs as <-.
      destruct (dispatch_frame _ _ _ Hd) as (_ & Ft & _).
      destruct Hnext as [res [E|Hin]];
        [unfold fetchSettled; rewrite Ft; exact Hf | discriminate |].
      exists res; right; exact Hin.
    + destruct (mounted s); try discriminate. injection Hs as <-.
      destruct Hnext as [res [E|Hin]]; [exact Hf | discriminate |].
      exists res; right; exact Hin.
Qed.

(** *** The authentication state along a run *)





(** *** The scenarios are reachable *)

Lemma reachable_fetching : reachable fetching.
Proof. exists [Mount]; reflexivity. Defined.

Lemma reachable_signedIn : reachable signedIn.
Proof.
  exists [Mount; FetchResolved exampleSuccess; JsonSettled]; reflexivity.
Defined.

Lemma reachable_optionsOpen : reachable optionsOpen.
Proof.
  exists [Mount; FetchResolved exampleSuccess; JsonSettled;
          Click (Inside [0; 2])].
  reflexivity.
Defined.

(** ** The interaction contract *)

(** C1, as the script has it. The fetch can fail in two ways and they end
    differently.  A response with a non-success status, whatever the status,
    stores [false] (the absent state) and the restricted-access view, the
    [<Forbidden />] component, is rendered.  A rejected fetch promise ends
    the mount hook at its first [await]: [userData] stays [null] (the
    unknown state) and nothing is rendered, then and ever after. *)
Theorem C1_failure_outcomes :
  forall s,
    reachable s -> task s = AwaitingFetch ->
    (forall res,
        ok res = false ->
        exists s',
          step s (FetchResolved res) = Some s'
          /\ userData s' = VBool false
          /\ authState s' = Absent
          /\ render s' = Ok (Some (Component "Forbidden" [] [])))
    /\ (forall res1 res2,
           ok res1 = false -> ok res2 = false ->
           step s (FetchResolved res1) = step s (FetchResolved res2))
    /\ (exists s',
           step s FetchRejected = Some s'
           /\ userData s' = VNull
           /\ authState s' = Unknown
           /\ render s' = Ok None
           /\ forall evs s'',
                run s' evs = Some s'' ->
                userData s'' = VNull /\ render s'' = Ok None).
Proof.
  intros s Hr Ht.
  pose proof (reachable_invariant s Hr) as Hi.
  destruct (invariant_not_completed s Hi) as (Hu & _ & _).
  { rewrite Ht; discriminate. }
  repeat split.
  - intros res Hok. exists (onMountedAfterFetch res s).
    assert (E : userData (onMountedAfterFetch res s) = VBool false).
    { unfold onMountedAfterFetch; rewrite Hok; reflexivity. }
    repeat split.
    + simpl; rewrite Ht; reflexivity.
    + exact E.
    + unfold authState; rewrite E; reflexivity.
    + apply render_false; exact E.
  - intros res1 res2 H1 H2. simpl; rewrite Ht.
    unfold onMountedAfterFetch; rewrite H1, H2; reflexivity.
  - exists (setTask Rejected s).
    assert (Hs : step s FetchRejected = Some (setTask Rejected s)).
    { simpl; rewrite Ht; reflexivity. }
    repeat split.
    + exact Hs.
    + exact Hu.
    + unfold authState; simpl; rewrite Hu; reflexivity.
    + apply render_null; exact Hu.
    + apply invariant_not_completed.
      * eapply run_invariant; [|exact H].
        eapply step_invariant; [exact Hi | exact Hs].
      * rewrite (run_rejected_stable evs (setTask Rejected s) s'' eq_refl H);
          discriminate.
    + assert (K : userData s'' = VNull); [|apply render_null; exact K].
      apply invariant_not_completed.
      * eapply run_invariant; [|exact H].
        eapply step_invariant; [exact Hi | exact Hs].
      * rewrite (run_rejected_stable evs (setTask Rejected s) s'' eq_refl H);
          discriminate.
Qed.

Lemma C1_witness :
  (forall res,
      ok res = false ->
      exists s',
        step fetching (FetchResolved res) = Some s'
        /\ userData s' = VBool false
        /\ authState s' = Absent
        /\ render s' = Ok (Some (Component "Forbidden" [] [])))
  /\ (forall res1 res2,
         ok res1 = false -> ok res2 = false ->
         step fetching (FetchResolved res1)
         = step fetching (FetchResolved res2))
  /\ (exists s',
         step fetching FetchRejected = Some s'
         /\ userData s' = VNull
         /\ authState s' = Unknown
         /\ render s' = Ok None
         /\ forall evs s'',
              run s' evs = Some s'' ->
              userData s'' = VNull /\ render s'' = Ok None).
Proof.
  apply (C1_failure_outcomes fetching).
  - exact reachable_fetching.
  - reflexivity.
Defined.

(** C1 as stated fails: after a rejected fetch the component is not in the
    absent state and the restricted-access view is not rendered. *)
Lemma C1_rejected_fetch_is_not_absent :
  exists s,
    run init [Mount; FetchRejected] = Some s
    /\ userData s = VNull
    /\ authState s <> Absent
    /\ render s = Ok None
    /\ render s <> Ok (Some (Component "Forbidden" [] [])).
Proof.
  eexists. split; [reflexivity|].
  repeat split; try reflexivity; discriminate.
Qed.

(** C2, as the template and the body's listener have it. Where the shell is
    rendered: a click on the user badge turns the flag on and stops there,
    never reaching [document.body]; a click inside the open popover leaves
    the flag on; any other click on a node of [document.body], in the shell
    or not, reaches the body's listener, which turns the flag off; a click
    on the document's root element, outside the body, reaches no listener
    and leaves everything as it was. *)
Theorem C2_user_options_clicks :
  forall s root t o,
    reachable s -> dom s = Some root -> isShell root = true ->
    dispatch s t = Some o ->
    match region s t with
    | Some UserBadge =>
        showUserOptions (after o) = true /\ reachedBody o = false
    | Some OptionsPopover =>
        showUserOptions s = true /\ showUserOptions (after o) = true
        /\ reachedBody o = false
    | Some Elsewhere =>
        showUserOptions (after o) = false /\ reachedBody o = true
    | Some OutsideBody =>
        after o = s /\ reachedBody o = false
    | None => False
    end.
Proof.
  intros s root t o Hr Hd Hs Hdisp.
  destruct (dom_render s root Hd) as [Hm Hrender].
  destruct (render_isShell s root Hrender Hs) as (Hf & Ht & ->).
  destruct (completed_of_truthy s (reachable_invariant s Hr) Ht) as [_ Hl].
  destruct t as [path| |]; unfold region; simpl in Hdisp.
  - rewrite Hd in *.
    destruct (chainTo _ path) as [chain|] eqn:Hc; try discriminate.
    unfold shellOf, chainTo in Hc.
    destruct s as [u show tk bl m]; simpl in *; subst bl m.
    clear Hr Hd Hrender Hf Ht Hs.
    destruct show; each_node;
      injection Hc as <-; cbn in Hdisp; injection Hdisp as <-; cbn; auto.
  - injection Hdisp as <-; simpl. rewrite fireBodyListeners_show, Hl.
    split; reflexivity.
  - injection Hdisp as <-; split; reflexivity.
Qed.

(** The clicks of the signed-in scenario: on the name in the badge; with
    the popover open, on its sign-out link, on the first navigation entry,
    outside the shell, and on the document's root element. *)
Lemma C2_witness :
  (dispatch signedIn (Inside [0; 2; 0]) = Some stoppedOpen
   /\ showUserOptions (after stoppedOpen) = true
   /\ reachedBody stoppedOpen = false)
  /\ (dispatch optionsOpen (Inside [0; 2; 1; 0; 0]) = Some stoppedOpen
      /\ showUserOptions optionsOpen = true
      /\ showUserOptions (after stoppedOpen) = true
      /\ reachedBody stoppedOpen = false)
  /\ (dispatch optionsOpen (Inside [0; 1; 0]) = Some dismissed
      /\ showUserOptions (after dismissed) = false
      /\ reachedBody dismissed = true)
  /\ (dispatch optionsOpen Outside = Some dismissed
      /\ showUserOptions (after dismissed) = false
      /\ reachedBody dismissed = true)
  /\ (dispatch optionsOpen RootElement = Some stoppedOpen
      /\ after stoppedOpen = optionsOpen
      /\ reachedBody stoppedOpen = false).
Proof.
  split; [|split; [|split; [|split]]]; (split; [reflexivity|]).
  - exact (C2_user_options_clicks signedIn (shellOf exampleSession false)
             (Inside [0; 2; 0]) stoppedOpen
             reachable_signedIn eq_refl eq_refl eq_refl).
  - exact (C2_user_options_clicks optionsOpen (shellOf exampleSession true)
             (Inside [0; 2; 1; 0; 0]) stoppedOpen
             reachable_optionsOpen eq_refl eq_refl eq_refl).
  - exact (C2_user_options_clicks optionsOpen (shellOf exampleSession true)
             (Inside [0; 1; 0]) dismissed
             reachable_optionsOpen eq_refl eq_refl eq_refl).
  - exact (C2_user_options_clicks optionsOpen (shellOf exampleSession true)
             Outside dismissed
             reachable_optionsOpen eq_refl eq_refl eq_refl).
  - exact (C2_user_options_clicks optionsOpen (shellOf exampleSession true)
             RootElement stoppedOpen
             reachable_optionsOpen eq_refl eq_refl eq_refl).
Defined.

(** C2 as stated fails: with the shell rendered and the popover open, a
    click on the document's root element is neither on the badge nor in the
    popover, and it leaves the flag on: it never gets to [document.body]. *)
Lemma C2_click_on_the_root_element_dismisses_nothing :
  exists o,
    dom optionsOpen = Some (shellOf exampleSession true)
    /\ isShell (shellOf exampleSession true) = true
    /\ region optionsOpen RootElement = Some OutsideBody
    /\ dispatch optionsOpen RootElement = Some o
    /\ showUserOptions optionsOpen = true
    /\ showUserOptions (after o) = true
    /\ reachedBody o = false.
Proof.
  eexists. repeat split; reflexivity.
Qed.

(** C3. Before the identity fetch resolves, [userData] is still [null]: the
    [v-if] test and the [v-else-if] test are both false and the render
    function yields the empty output, neither the shell nor the
    restricted-access view. *)
Theorem C3_nothing_rendered_before_fetch_resolves :
  forall s,
    reachable s ->
    task s = NotStarted \/ task s = AwaitingFetch ->
    userData s = VNull /\ authState s = Unknown
    /\ looseEqFalse (userData s) = Ok false
    /\ truthy (userData s) = false
    /\ render s = Ok None
    /\ dom s = None.
Proof.
  intros s Hr Ht.
  destruct (invariant_not_completed s (reachable_invariant s Hr))
    as (Hu & _ & _).
  { destruct Ht as [E|E]; rewrite E; discriminate. }
  unfold authState, dom. rewrite (render_null s Hu), Hu.
  repeat split; destruct (mounted s); reflexivity.
Qed.

Lemma C3_witness :
  userData fetching = VNull /\ authState fetching = Unknown
  /\ looseEqFalse (userData fetching) = Ok false
  /\ truthy (userData fetching) = false
  /\ render fetching = Ok None
  /\ dom fetching = None.
Proof.
  apply (C3_nothing_rendered_before_fetch_resolves fetching).
  - exact reachable_fetching.
  - right; reflexivity.
Defined.

(** C4, for the bodies it holds for. When the identity fetch resolves with a
    success status and the body parses to an object that holds a session (at
    least the three fields, each a string), has no property named
    [toString] and no truthy property named [__v_raw], the body is stored as
    it is and the render function yields the shell, which shows the
    session's [displayName]. *)
Theorem C4_session_renders_shell :
  forall s res body name,
    reachable s -> task s = AwaitingFetch ->
    ok res = true -> json res = Some body ->
    holdsSession body = true -> sessionDisplayName body = Some name ->
    toStringThrows body = false -> marked "__v_raw" body = false ->
    exists s',
      run s [FetchResolved res; JsonSettled] = Some s'
      /\ userData s' = body
      /\ authState s' = Present
      /\ exists root,
           render s' = Ok (Some root)
           /\ isShell root = true
           /\ In (Txt name) (texts root).
Proof.
  intros s res body name Hr Ht Hok Hj Hb Hn Hts Hraw.
  destruct body as [| | | | |props]; try discriminate Hb.
  destruct (success_with_object_body s res props Ht Hok Hj Hts Hraw)
    as (s' & Hrun & Hu & Hrender).
  exists s'. repeat split.
  - exact Hrun.
  - exact Hu.
  - unfold authState; rewrite Hu; reflexivity.
  - eexists. split; [exact Hrender | split; [reflexivity|]].
    replace (Txt name) with (memberText (VObject props) displayName).
    + apply shellOf_shows_displayName.
    + simpl in Hn. unfold stringMember in Hn. unfold memberText.
      destruct (getOwn (fieldName displayName) props) as [[| | |str| |]|];
        try discriminate Hn.
      injection Hn as ->; reflexivity.
Qed.

Lemma C4_witness :
  exists s',
    run fetching [FetchResolved exampleSuccess; JsonSettled] = Some s'
    /\ userData s' = exampleSession
    /\ authState s' = Present
    /\ exists root,
         render s' = Ok (Some root)
         /\ isShell root = true
         /\ In (Txt "A. User") (texts root).
Proof.
  apply (C4_session_renders_shell fetching exampleSuccess exampleSession
           "A. User").
  - exact reachable_fetching.
  - reflexivity.
  - reflexivity.
  - reflexivity.
  - reflexivity.
  - reflexivity.
  - reflexivity.
  - reflexivity.
Defined.

(** C4 as stated fails for two kinds of session body.  One that also has a
    property named [toString] is stored, and the render function raises in
    [userData == false]: nothing is shown.  One that also has an object as
    [__v_raw] is not stored: the ref stores that object instead, and the
    shell shows its [displayName], not the session's. *)
Lemma C4_session_bodies_that_do_not_show :
  (holdsSession shadowedSession = true
   /\ sessionDisplayName shadowedSession = Some "A. User"
   /\ ok exampleShadowed = true
   /\ exists s',
        run fetching [FetchResolved exampleShadowed; JsonSettled] = Some s'
        /\ userData s' = shadowedSession
        /\ render s' = Throw
        /\ dom s' = None)
  /\ (holdsSession wrappedSession = true
      /\ sessionDisplayName wrappedSession = Some "A. User"
      /\ ok exampleWrapped = true
      /\ exists s' root,
           run fetching [FetchResolved exampleWrapped; JsonSettled] = Some s'
           /\ userData s' = VObject [("displayName", VString "Someone Else")]
           /\ userData s' <> wrappedSession
           /\ render s' = Ok (Some root)
           /\ In (Txt "Someone Else") (texts root)
           /\ ~ In (Txt "A. User") (texts root)).
Proof.
  split.
  - repeat split; try reflexivity.
    eexists. repeat split; reflexivity.
  - repeat split; try reflexivity.
    eexists. eexists. split; [reflexivity|].
    split; [reflexivity|]. split; [discriminate|].
    split; [reflexivity|]. split.
    + simpl. auto 10.
    + simpl. intros H.
      repeat (destruct H as [H|H]; [discriminate H|]). exact H.
Qed.

(** C5. When the identity fetch resolves with a non-success status, the
    render function yields the [<Forbidden />] component, the
    restricted-access view, and nothing else: the tree is that one node,
    without props and without slot content, so it is not the shell and none
    of the template's navigation entries, router links or routed views is in
    it.  The render function yields the same for the rest of the component's
    life, never the shell. *)
Theorem C5_failure_status_renders_forbidden :
  forall s res,
    reachable s -> task s = AwaitingFetch -> ok res = false ->
    exists s',
      step s (FetchResolved res) = Some s'
      /\ render s' = Ok (Some (Component "Forbidden" [] []))
      /\ forall evs s'',
           run s' evs = Some s'' ->
           exists root,
             render s'' = Ok (Some root)
             /\ root = Component "Forbidden" [] []
             /\ nodes root = [root]
             /\ isShell root = false
             /\ navEntries root = []
             /\ routerLinks root = []
             /\ routerViews root = [].
Proof.
  intros s res Hr Ht Hok.
  exists (onMountedAfterFetch res s).
  assert (Hs : step s (FetchResolved res) = Some (onMountedAfterFetch res s)).
  { simpl; rewrite Ht; reflexivity. }
  assert (Hu : userData (onMountedAfterFetch res s) = VBool false).
  { unfold onMountedAfterFetch; rewrite Hok; reflexivity. }
  split; [exact Hs | split].
  - exact (render_false _ Hu).
  - intros evs s'' Hrun. exists (Component "Forbidden" [] []).
    repeat split.
    apply (render_false s'').
    rewrite <- Hu. eapply run_userData_stable; [| |exact Hrun].
    + eapply step_invariant; [apply reachable_invariant; exact Hr | exact Hs].
    + rewrite Hu; discriminate.
Qed.

Lemma C5_witness :
  exists s',
    step fetching (FetchResolved exampleFailure) = Some s'
    /\ render s' = Ok (Some (Component "Forbidden" [] []))
    /\ forall evs s'',
         run s' evs = Some s'' ->
         exists root,
           render s'' = Ok (Some root)
           /\ root = Component "Forbidden" [] []
           /\ nodes root = [root]
           /\ isShell root = false
           /\ navEntries root = []
           /\ routerLinks root = []
           /\ routerViews root = [].
Proof.
  apply (C5_failure_status_renders_forbidden fetching exampleFailure).
  - exact reachable_fetching.
  - reflexivity.
  - reflexivity.
Defined.




(** C7. The flag starts off, and in every reachable state it is on only in
    the present state, where the shell branch is the one rendered; in the
    unknown and absent states it is off. *)
Theorem C7_options_visible_only_when_present :
  forall s,
    reachable s ->
    showUserOptions init = false
    /\ (showUserOptions s = true ->
        authState s = Present
        /\ render s = Ok (Some (shellOf (userData s) true)))
    /\ (authState s = Unknown \/ authState s = Absent ->
        showUserOptions s = false).
Proof.
  intros s Hr.
  destruct (reachable_invariant s Hr) as (_ & _ & H3 & _).
  assert (K : showUserOptions s = true -> authState s = Present).
  { intros Hs. destruct (H3 Hs) as [_ Ht]. unfold authState.
    destruct (userData s) as [|[|]| | | |]; try reflexivity; discriminate Ht. }
  repeat split.
  - apply K; assumption.
  - destruct (H3 H) as [Hf Ht].
    rewrite (render_shell s Hf Ht), H; reflexivity.
  - intros Ha. destruct (showUserOptions s); [|reflexivity].
    rewrite (K eq_refl) in Ha. destruct Ha; discriminate.
Qed.

Lemma C7_witness :
  showUserOptions init = false
  /\ (showUserOptions optionsOpen = true ->
      authState optionsOpen = Present
      /\ render optionsOpen = Ok (Some (shellOf (userData optionsOpen) true)))
  /\ (authState optionsOpen = Unknown \/ authState optionsOpen = Absent ->
      showUserOptions optionsOpen = false).
Proof.
  apply (C7_options_visible_only_when_present optionsOpen).
  exact reachable_optionsOpen.
Defined.

(** C8. Whenever the render function yields the shell, its navigation holds
    exactly three entries, and they link to [/announcements],
    [/discord/users] and [/promotion-schedule]; the only other router link
    of the shell is the logo's, to [/]. *)
Theorem C8_navigation_entries :
  forall s root,
    render s = Ok (Some root) -> isShell root = true ->
    List.length (navEntries root) = 3
    /\ map linkTarget (navEntries root)
       = [Some "/announcements"; Some "/discord/users";
          Some "/promotion-schedule"]
    /\ map linkTarget (routerLinks root)
       = Some "/" :: map linkTarget (navEntries root).
Proof.
  intros s root Hr Hs.
  destruct (render_isShell s root Hr Hs) as (_ & _ & ->).
  destruct (showUserOptions s); repeat split; reflexivity.
Qed.

Lemma C8_witness :
  List.length (navEntries (shellOf exampleSession true)) = 3
  /\ map linkTarget (navEntries (shellOf exampleSession true))
     = [Some "/announcements"; Some "/discord/users";
        Some "/promotion-schedule"]
  /\ map linkTarget (routerLinks (shellOf exampleSession true))
     = Some "/" :: map linkTarget (navEntries (shellOf exampleSession true)).
Proof.
  apply (C8_navigation_entries optionsOpen (shellOf exampleSession true)).
  - reflexivity.
  - reflexivity.
Defined.

(** C9. Sign-out is in the rendered tree only as the anchor of the open
    popover: an [<a>] whose [href] is [/api/auth/signout], with no click
    listener on it or on anything inside it.  A click on it runs no handler
    and changes nothing: it stops at the popover. *)
Theorem C9_sign_out_is_a_plain_link :
  forall s root,
    dom s = Some root ->
    signOutNodes root
    = (if isShell root && showUserOptions s then [signOutLink] else [])
    /\ isElement "a" signOutLink = true
    /\ lookup "href" (attrsOf signOutLink) = Some "/api/auth/signout"
    /\ forallb (fun n => negb (isSome (onClickOf n))) (nodes signOutLink)
       = true
    /\ (forall path chain,
           chainTo root path = Some chain ->
           existsb linksToSignOut chain = true ->
           dispatch s (Inside path)
           = Some {| after := s; reachedBody := false |}).
Proof.
  intros s root Hd.
  destruct (dom_render s root Hd) as [_ Hrender].
  destruct (render_some s root Hrender) as [[_ ->]|(_ & _ & ->)].
  - repeat split; try reflexivity.
    intros path chain Hc He.
    apply chainTo_forbiddenView in Hc; subst chain; discriminate He.
  - repeat split; try reflexivity.
    + destruct (showUserOptions s); reflexivity.
    + intros path chain Hc He.
      unfold dispatch. rewrite Hd, Hc.
      unfold shellOf, chainTo in Hc.
      destruct s as [u show tk bl m]; simpl in Hc.
      clear Hd Hrender.
      destruct show; each_node;
        injection Hc as <-; cbn in He; try discriminate He; reflexivity.
Qed.

Lemma C9_witness :
  signOutNodes (shellOf exampleSession true)
  = (if isShell (shellOf exampleSession true) && showUserOptions optionsOpen
     then [signOutLink] else [])
  /\ isElement "a" signOutLink = true
  /\ lookup "href" (attrsOf signOutLink) = Some "/api/auth/signout"
  /\ forallb (fun n => negb (isSome (onClickOf n))) (nodes signOutLink) = true
  /\ (forall path chain,
         chainTo (shellOf exampleSession true) path = Some chain ->
         existsb linksToSignOut chain = true ->
         dispatch optionsOpen (Inside path)
         = Some {| after := optionsOpen; reachedBody := false |}).
Proof.
  apply (C9_sign_out_is_a_plain_link optionsOpen
           (shellOf exampleSession true)).
  reflexivity.
Defined.

(** C10. The click listener is on [document.body] only once the mount hook
    has run to its end, which takes a resolved fetch, and never after a
    rejected fetch; so before the fetch resolves no click changes anything.
    No event removes a listener: unmounting leaves it in place. *)
Theorem C10_body_listener_registration :
  forall evs s,
    run init evs = Some s ->
    bodyListeners s = match task s with Completed => 1 | _ => 0 end
    /\ (0 < bodyListeners s -> exists res, In (FetchResolved res) evs)
    /\ (In FetchRejected evs -> bodyListeners s = 0)
    /\ (task s = NotStarted \/ task s = AwaitingFetch ->
        forall t o, dispatch s t = Some o -> after o = s)
    /\ (forall e s', step s e = Some s' -> bodyListeners s <= bodyListeners s')
    /\ (mounted s = true ->
        exists s', step s Unmount = Some s'
                   /\ bodyListeners s' = bodyListeners s).
Proof.
  intros evs s Hr.
  assert (Hi : invariant s).
  { apply reachable_invariant; exists evs; exact Hr. }
  repeat split.
  - destruct (task s) eqn:Ht; try (apply Hi; exact Ht);
      (destruct (invariant_not_completed s Hi) as (_ & _ & K);
       [rewrite Ht; discriminate | exact K]).
  - intros Hl.
    apply (run_completed_fetch_resolved evs init s eq_refl Hr).
    destruct (task s) eqn:Ht; try reflexivity;
      (destruct (invariant_not_completed s Hi) as (_ & _ & K);
       [rewrite Ht; discriminate | lia]).
  - intros Hin. pose proof (run_fetch_rejected _ _ _ Hr Hin) as Ht.
    apply invariant_not_completed; [exact Hi | rewrite Ht; discriminate].
  - intros Ht t o Hd.
    destruct (invariant_not_completed s Hi) as (Hu & _ & Hl).
    { destruct Ht as [E|E]; rewrite E; discriminate. }
    destruct t as [path| |]; simpl in Hd.
    + unfold dom in Hd. rewrite (render_null s Hu) in Hd.
      destruct (mounted s); discriminate.
    + injection Hd as <-; simpl.
      unfold fireBodyListeners; rewrite Hl; reflexivity.
    + injection Hd as <-; reflexivity.
  - apply step_bodyListeners_mono.
  - intros Hm. exists (setMounted false s). simpl. rewrite Hm.
    split; reflexivity.
Qed.

Lemma C10_witness :
  (bodyListeners fetching
   = match task fetching with Completed => 1 | _ => 0 end
   /\ (0 < bodyListeners fetching ->
       exists res, In (FetchResolved res) [Mount])
   /\ (In FetchRejected [Mount] -> bodyListeners fetching = 0)
   /\ (task fetching = NotStarted \/ task fetching = AwaitingFetch ->
       forall t o, dispatch fetching t = Some o -> after o = fetching)
   /\ (forall e s',
          step fetching e = Some s' ->
          bodyListeners fetching <= bodyListeners s')
   /\ (mounted fetching = true ->
       exists s', step fetching Unmount = Some s'
                  /\ bodyListeners s' = bodyListeners fetching))
  /\ (bodyListeners signedIn
      = match task signedIn with Completed => 1 | _ => 0 end
      /\ (0 < bodyListeners signedIn ->
          exists res,
            In (FetchResolved res)
               [Mount; FetchResolved exampleSuccess; JsonSettled])
      /\ (In FetchRejected [Mount; FetchResolved exampleSuccess; JsonSettled] ->
          bodyListeners signedIn = 0)
      /\ (task signedIn = NotStarted \/ task signedIn = AwaitingFetch ->
          forall t o, dispatch signedIn t = Some o -> after o = signedIn)
      /\ (forall e s',
             step signedIn e = Some s' ->
             bodyListeners signedIn <= bodyListeners s')
      /\ (mounted signedIn = true ->
          exists s', step signedIn Unmount = Some s'
                     /\ bodyListeners s' = bodyListeners signedIn)).
Proof.
  split.
  - apply (C10_body_listener_registration [Mount] fetching).
    reflexivity.
  - apply (C10_body_listener_registration
             [Mount; FetchResolved exampleSuccess; JsonSettled] signedIn).
    reflexivity.
Defined.

(** ** Further properties of the script and the template *)


Lemma reachable_refused : reachable refused.
Proof. exists [Mount; FetchResolved exampleFailure]; reflexivity. Defined.

Lemma reachable_leftOpen : reachable leftOpen.
Proof.
  exists [Mount; FetchResolved exampleSuccess; JsonSettled;
          Click (Inside [0; 2]); Unmount].
  reflexivity.
Defined.

(** With the flag off the body's listeners write what is already there. *)
Lemma iter_bodyListener_off :
  forall n s, showUserOptions s = false -> Nat.iter n bodyListener s = s.
Proof.
  induction n as [|n IH]; intros s Hs; simpl.
  - reflexivity.
  - rewrite (IH s Hs). destruct s as [u show tk bl m]; simpl in Hs.
    subst show; reflexivity.
Qed.

(** The flag is off wherever the render function does not yield the shell. *)
Lemma flag_off_without_shell :
  forall s,
    invariant s ->
    (forall root, render s = Ok (Some root) -> isShell root = false) ->
    showUserOptions s = false.
Proof.
  intros s (_ & _ & H3 & _) Hn.
  destruct (showUserOptions s) eqn:E; [|reflexivity].
  destruct (H3 eq_refl) as [Hf Ht].
  pose proof (Hn _ (render_shell s Hf Ht)) as K. discriminate K.
Qed.


Lemma reachable_run :
  forall evs s s', reachable s -> run s evs = Some s' -> reachable s'.
Proof.
  intros evs s s' [evs0 Hr] H. exists (evs0 ++ evs).
  rewrite (run_app _ _ _ _ Hr). exact H.
Qed.

(** The render function raises only in the comparison with [false]. *)
Lemma render_raises_in_comparison :
  forall s, render s = Throw <-> looseEqFalse (userData s) = Throw.
Proof.
  intros s. unfold render.
  destruct (looseEqFalse (userData s)) as [[|]|]; simpl.
  - split; discriminate.
  - destruct (truthy (userData s)) eqn:Ht.
    + rewrite renderShell_eq by (apply truthy_not_null; exact Ht).
      simpl; split; discriminate.
    + split; discriminate.
  - split; reflexivity.
Qed.

Lemma looseEqFalse_raises :
  forall v, looseEqFalse v = Throw <-> toStringThrows v = true.
Proof.
  intros v. destruct v; simpl; try (split; discriminate).
  - destruct (existsb toStringThrows items); split;
      intros H; try reflexivity; discriminate H.
  - destruct (hasOwn "toString" props); split;
      intros H; try reflexivity; discriminate H.
Qed.

(** X1. A success status whose body [res.json()] cannot parse ends the mount
    hook at its second [await]: nothing is stored, nothing is rendered, the
    flag stays off and the click listener is never added to the body. *)
Theorem X1_unreadable_body_ends_the_hook :
  forall s res,
    reachable s -> task s = AwaitingFetch ->
    ok res = true -> json res = None ->
    exists s',
      run s [FetchResolved res; JsonSettled] = Some s'
      /\ task s' = Rejected
      /\ forall evs s'',
           run s' evs = Some s'' ->
           userData s'' = VNull /\ showUserOptions s'' = false
           /\ bodyListeners s'' = 0 /\ render s'' = Ok None.
Proof.
  intros s res Hr Ht Hok Hj.
  exists (setTask Rejected (setTask (AwaitingJson res) s)).
  assert (Hrun : run s [FetchResolved res; JsonSettled]
                 = Some (setTask Rejected (setTask (AwaitingJson res) s))).
  { simpl. rewrite Ht. unfold onMountedAfterFetch; rewrite Hok. simpl.
    unfold onMountedAfterJson; rewrite Hj. reflexivity. }
  split; [exact Hrun | split; [reflexivity|]].
  intros evs s'' H.
  assert (Hi : invariant s'').
  { apply reachable_invariant.
    eapply reachable_run; [|exact H]. eapply reachable_run; eassumption. }
  destruct (invariant_not_completed s'' Hi) as (Hu & Hs & Hl).
  { rewrite (run_rejected_stable evs
               (setTask Rejected (setTask (AwaitingJson res) s)) s''
               eq_refl H).
    discriminate. }
  repeat split; try assumption. apply render_null; exact Hu.
Qed.

Lemma X1_witness :
  exists s',
    run fetching [FetchResolved exampleUnreadable; JsonSettled] = Some s'
    /\ task s' = Rejected
    /\ forall evs s'',
         run s' evs = Some s'' ->
         userData s'' = VNull /\ showUserOptions s'' = false
         /\ bodyListeners s'' = 0 /\ render s'' = Ok None.
Proof.
  apply (X1_unreadable_body_ends_the_hook fetching exampleUnreadable).
  - exact reachable_fetching.
  - reflexivity.
  - reflexivity.
  - reflexivity.
Defined.

(** X2. A success status whose body is the JSON text [null] lets the mount
    hook run to its end and add its listener, yet [null] is stored over
    [null]: the component stays in the unknown state and renders nothing for
    the rest of its life. *)
Theorem X2_null_body_leaves_unknown :
  forall s res,
    reachable s -> task s = AwaitingFetch ->
    ok res = true -> json res = Some VNull ->
    exists s',
      run s [FetchResolved res; JsonSettled] = Some s'
      /\ task s' = Completed
      /\ bodyListeners s' = 1
      /\ forall evs s'',
           run s' evs = Some s'' ->
           authState s'' = Unknown /\ render s'' = Ok None
           /\ showUserOptions s'' = false.
Proof.
  intros s res Hr Ht Hok Hj.
  pose proof (reachable_invariant s Hr) as Hi.
  destruct (invariant_not_completed s Hi) as (_ & _ & Hl).
  { rewrite Ht; discriminate. }
  set (s' := setTask Completed
               (addBodyListener
                  (setUserData VNull (setTask (AwaitingJson res) s)))).
  assert (Hrun : run s [FetchResolved res; JsonSettled] = Some s').
  { simpl. rewrite Ht. unfold onMountedAfterFetch; rewrite Hok. simpl.
    unfold onMountedAfterJson; rewrite Hj. reflexivity. }
  exists s'. split; [exact Hrun | split; [reflexivity | split]].
  - simpl. rewrite Hl; reflexivity.
  - intros evs s'' H.
    destruct (run_completed_stable evs s' s'' eq_refl H) as [Hu _].
    simpl in Hu.
    assert (Hi'' : invariant s'').
    { apply reachable_invariant.
      eapply reachable_run; [|exact H]. eapply reachable_run; eassumption. }
    repeat split.
    + unfold authState; rewrite Hu; reflexivity.
    + apply render_null; exact Hu.
    + destruct (showUserOptions s'') eqn:E; [|reflexivity].
      destruct Hi'' as (_ & _ & H3 & _). destruct (H3 E) as [_ K].
      rewrite Hu in K; discriminate K.
Qed.

Lemma X2_witness :
  exists s',
    run fetching [FetchResolved exampleNullBody; JsonSettled] = Some s'
    /\ task s' = Completed
    /\ bodyListeners s' = 1
    /\ forall evs s'',
         run s' evs = Some s'' ->
         authState s'' = Unknown /\ render s'' = Ok None
         /\ showUserOptions s'' = false.
Proof.
  apply (X2_null_body_leaves_unknown fetching exampleNullBody).
  - exact reachable_fetching.
  - reflexivity.
  - reflexivity.
  - reflexivity.
Defined.

(** X3. The render function raises exactly when the stored value cannot be
    converted for the comparison [userData == false]: an object with a
    [toString] property of its own, or an array holding one at any depth.
    The member reads of the shell branch never raise: they are evaluated
    only for a value that is not [null]. *)
Theorem X3_render_raises_only_in_the_comparison :
  forall s,
    (render s = Throw <-> toStringThrows (userData s) = true)
    /\ (truthy (userData s) = true ->
        exists root,
          renderShell (userData s) (showUserOptions s) = Ok root
          /\ isShell root = true).
Proof.
  intros s. split.
  - rewrite render_raises_in_comparison. apply looseEqFalse_raises.
  - intros Ht. eexists. split.
    + apply renderShell_eq. apply truthy_not_null; exact Ht.
    + reflexivity.
Qed.

(** X4. A success status whose body parses to a value with a [toString]
    property of its own and no truthy [__v_raw] (even a session body that
    has a [toString] besides its fields) is stored as it is, and from then
    on every render raises: the document shows nothing of the component and
    the flag stays off, for the rest of its life. *)
Theorem X4_unconvertible_body_renders_nothing :
  forall s res v,
    reachable s -> task s = AwaitingFetch ->
    ok res = true -> json res = Some v ->
    toStringThrows v = true -> marked "__v_raw" v = false ->
    exists s',
      run s [FetchResolved res; JsonSettled] = Some s'
      /\ userData s' = v
      /\ forall evs s'',
           run s' evs = Some s'' ->
           render s'' = Throw /\ dom s'' = None
           /\ showUserOptions s'' = false.
Proof.
  intros s res v Hr Ht Hok Hj Hv Hraw.
  set (s' := setTask Completed
               (addBodyListener
                  (setUserData v (setTask (AwaitingJson res) s)))).
  assert (Hrun : run s [FetchResolved res; JsonSettled] = Some s').
  { simpl. rewrite Ht. unfold onMountedAfterFetch; rewrite Hok. simpl.
    unfold onMountedAfterJson; rewrite Hj. reflexivity. }
  assert (Hst : userData s' = v) by exact (storedValue_unmarked v Hraw).
  exists s'. split; [exact Hrun | split; [exact Hst|]].
  intros evs s'' H.
  destruct (run_completed_stable evs s' s'' eq_refl H) as [Hu _].
  rewrite Hst in Hu.
  assert (Hraise : render s'' = Throw).
  { apply render_raises_in_comparison. apply looseEqFalse_raises.
    rewrite Hu; exact Hv. }
  assert (Hi'' : invariant s'').
  { apply reachable_invariant.
    eapply reachable_run; [|exact H]. eapply reachable_run; eassumption. }
  repeat split.
  - exact Hraise.
  - unfold dom. rewrite Hraise. destruct (mounted s''); reflexivity.
  - destruct (showUserOptions s'') eqn:E; [|reflexivity].
    destruct Hi'' as (_ & _ & H3 & _). destruct (H3 E) as [K _].
    apply render_raises_in_comparison in Hraise.
    rewrite Hraise in K; discriminate K.
Qed.

Lemma X4_witness :
  exists s',
    run fetching [FetchResolved exampleShadowed; JsonSettled] = Some s'
    /\ userData s' = shadowedSession
    /\ forall evs s'',
         run s' evs = Some s'' ->
         render s'' = Throw /\ dom s'' = None
         /\ showUserOptions s'' = false.
Proof.
  apply (X4_unconvertible_body_renders_nothing fetching exampleShadowed
           shadowedSession).
  - exact reachable_fetching.
  - reflexivity.
  - reflexivity.
  - reflexivity.
  - reflexivity.
  - reflexivity.
Defined.

(** X5. Unmounting does not stop the mount hook.  If the component is
    unmounted while the fetch is pending, the hook still runs to its end
    when the fetch resolves: it stores [false], or the parsed body (as it
    is, when it has no truthy [__v_raw]), and adds its click listener to the
    body, although nothing of the component is in the document any more. *)
Theorem X5_hook_completes_after_unmount :
  forall s res,
    reachable s -> task s = AwaitingFetch -> mounted s = true ->
    exists s1,
      step s Unmount = Some s1
      /\ (ok res = false ->
          exists s',
            step s1 (FetchResolved res) = Some s'
            /\ userData s' = VBool false /\ bodyListeners s' = 1
            /\ mounted s' = false /\ dom s' = None)
      /\ (forall v,
             ok res = true -> json res = Some v ->
             exists s',
               run s1 [FetchResolved res; JsonSettled] = Some s'
               /\ task s' = Completed
               /\ (marked "__v_raw" v = false -> userData s' = v)
               /\ bodyListeners s' = 1
               /\ mounted s' = false /\ dom s' = None).
Proof.
  intros s res Hr Ht Hm.
  destruct (invariant_not_completed s (reachable_invariant s Hr))
    as (_ & _ & Hl).
  { rewrite Ht; discriminate. }
  exists (setMounted false s). split; [simpl; rewrite Hm; reflexivity|].
  split.
  - intros Hok. eexists. split.
    + simpl. rewrite Ht. unfold onMountedAfterFetch; rewrite Hok.
      reflexivity.
    + simpl. rewrite Hl. repeat split; reflexivity.
  - intros v Hok Hj. eexists. split.
    + simpl. rewrite Ht. unfold onMountedAfterFetch; rewrite Hok. simpl.
      unfold onMountedAfterJson; rewrite Hj. reflexivity.
    + split; [reflexivity | split].
      * intros Hraw. exact (storedValue_unmarked v Hraw).
      * simpl. rewrite Hl. repeat split; reflexivity.
Qed.

Lemma X5_witness :
  exists s1,
    step fetching Unmount = Some s1
    /\ (ok exampleSuccess = false ->
        exists s',
          step s1 (FetchResolved exampleSuccess) = Some s'
          /\ userData s' = VBool false /\ bodyListeners s' = 1
          /\ mounted s' = false /\ dom s' = None)
    /\ (forall v,
           ok exampleSuccess = true -> json exampleSuccess = Some v ->
           exists s',
             run s1 [FetchResolved exampleSuccess; JsonSettled] = Some s'
             /\ task s' = Completed
             /\ (marked "__v_raw" v = false -> userData s' = v)
             /\ bodyListeners s' = 1
             /\ mounted s' = false /\ dom s' = None).
Proof.
  apply (X5_hook_completes_after_unmount fetching exampleSuccess).
  - exact reachable_fetching.
  - reflexivity.
  - reflexivity.
Defined.

(** X6. The body's listener outlives the component.  After unmount no node
    of the component can be clicked, yet a click anywhere else in the body
    still runs the listener, which writes [false] into the flag of the
    unmounted component and changes nothing else. *)
Theorem X6_listener_outlives_the_component :
  forall s,
    reachable s -> task s = Completed -> mounted s = false ->
    (forall path, dispatch s (Inside path) = None)
    /\ dispatch s Outside
       = Some {| after := setShowUserOptions false s; reachedBody := true |}.
Proof.
  intros s Hr Ht Hm.
  destruct (reachable_invariant s Hr) as (_ & H2 & _).
  split.
  - intros path. simpl. unfold dom. rewrite Hm. reflexivity.
  - simpl. unfold fireBodyListeners. rewrite (H2 Ht). reflexivity.
Qed.

Lemma X6_witness :
  (forall path, dispatch leftOpen (Inside path) = None)
  /\ dispatch leftOpen Outside
     = Some {| after := setShowUserOptions false leftOpen;
               reachedBody := true |}.
Proof.
  apply (X6_listener_outlives_the_component leftOpen).
  - exact reachable_leftOpen.
  - reflexivity.
  - reflexivity.
Defined.

(** X7. Which event writes which cell.  Only a click changes the flag; only
    the settling of the fetch or of the body parse changes [userData] or
    the listeners on the body, and it adds one listener; only mounting and
    unmounting change whether the component is mounted. *)
Theorem X7_which_event_writes_which_cell :
  forall s e s',
    step s e = Some s' ->
    (showUserOptions s' <> showUserOptions s -> exists t, e = Click t)
    /\ (userData s' <> userData s ->
        e = JsonSettled \/ exists res, e = FetchResolved res)
    /\ (bodyListeners s' <> bodyListeners s ->
        bodyListeners s' = S (bodyListeners s)
        /\ (e = JsonSettled \/ exists res, e = FetchResolved res))
    /\ (mounted s' <> mounted s -> e = Mount \/ e = Unmount).
Proof.
  intros s e s' Hs.
  destruct e; simpl in Hs.
  - destruct (task s); try discriminate. injection Hs as <-.
    split; [|split; [|split]]; intros H;
      try (exfalso; apply H; reflexivity).
    left; reflexivity.
  - destruct (task s); try discriminate. injection Hs as <-.
    unfold onMountedAfterFetch in *.
    split; [|split; [|split]]; intros H.
    + exfalso; apply H. destruct (ok res); reflexivity.
    + right; exists res; reflexivity.
    + destruct (ok res); simpl in *.
      * exfalso; apply H; reflexivity.
      * split; [reflexivity | right; exists res; reflexivity].
    + exfalso; apply H. destruct (ok res); reflexivity.
  - destruct (task s); try discriminate. injection Hs as <-.
    split; [|split; [|split]]; intros H;
      exfalso; apply H; reflexivity.
  - destruct (task s); try discriminate. injection Hs as <-.
    unfold onMountedAfterJson in *.
    split; [|split; [|split]]; intros H.
    + exfalso; apply H. destruct (json res); reflexivity.
    + left; reflexivity.
    + destruct (json res); simpl in *.
      * split; [reflexivity | left; reflexivity].
      * exfalso; apply H; reflexivity.
    + exfalso; apply H. destruct (json res); reflexivity.
  - destruct (dispatch s t) as [o|] eqn:Hd; try discriminate.
    injection Hs as <-.
    destruct (dispatch_frame _ _ _ Hd) as (Fu & _ & Fl & Fm).
    split; [|split; [|split]]; intros H.
    + exists t; reflexivity.
    + contradiction.
    + contradiction.
    + contradiction.
  - destruct (mounted s); try discriminate. injection Hs as <-.
    split; [|split; [|split]]; intros H;
      try (exfalso; apply H; reflexivity).
    right; reflexivity.
Qed.

Lemma X7_witness :
  (showUserOptions refused <> showUserOptions fetching ->
   exists t, FetchResolved exampleFailure = Click t)
  /\ (userData refused <> userData fetching ->
      FetchResolved exampleFailure = JsonSettled
      \/ exists res, FetchResolved exampleFailure = FetchResolved res)
  /\ (bodyListeners refused <> bodyListeners fetching ->
      bodyListeners refused = S (bodyListeners fetching)
      /\ (FetchResolved exampleFailure = JsonSettled
          \/ exists res, FetchResolved exampleFailure = FetchResolved res))
  /\ (mounted refused <> mounted fetching ->
      FetchResolved exampleFailure = Mount
      \/ FetchResolved exampleFailure = Unmount).
Proof.
  apply (X7_which_event_writes_which_cell fetching
           (FetchResolved exampleFailure) refused).
  reflexivity.
Defined.



Lemma memberText_plain :
  forall u f str, plainMember u f = Some str -> memberText u f = Txt str.
Proof.
  intros u f str. unfold plainMember, memberText.
  destruct u as [| | | | |props]; try discriminate;
    try (intros H; injection H as <-; reflexivity).
  destruct (getOwn (fieldName f) props) as [[| | |x| |]|];
    try discriminate; intros H; injection H as <-; reflexivity.
Qed.

(** X9. The texts of the shell, in document order: the icons and names of
    the three navigation entries, then the text of
    [{{ userData.displayName }}]; and, only while the popover is open, the
    sign-out label and icon followed by the texts of
    [{{ userData.userPrincipalName }}] and [{{ userData.mail }}].  A member
    that is a string shows as that string; one that is missing or [null]
    shows as the empty text. *)
Theorem X9_texts_of_the_shell :
  forall s root,
    render s = Ok (Some root) -> isShell root = true ->
    exists dn upn m,
      texts root
      = [ Txt "campaign"; Txt "Announcements"; Txt "group";
          Txt "Discord Users"; Txt " calendar_month ";
          Txt "Promotion Schedule"; dn ]
        ++ (if showUserOptions s
            then [Txt "Sign out"; Txt "logout"; upn; m]
            else [])
      /\ (forall str,
             plainMember (userData s) displayName = Some str -> dn = Txt str)
      /\ (forall str,
             plainMember (userData s) userPrincipalName = Some str ->
             upn = Txt str)
      /\ (forall str,
             plainMember (userData s) mail = Some str -> m = Txt str).
Proof.
  intros s root Hr Hs.
  destruct (render_isShell s root Hr Hs) as (_ & Ht & ->).
  exists (memberText (userData s) displayName),
         (memberText (userData s) userPrincipalName),
         (memberText (userData s) mail).
  split; [destruct (showUserOptions s); reflexivity|].
  repeat split; intros str H; apply memberText_plain; exact H.
Qed.

Lemma X9_witness :
  exists dn upn m,
    texts (shellOf exampleSession true)
    = [ Txt "campaign"; Txt "Announcements"; Txt "group";
        Txt "Discord Users"; Txt " calendar_month ";
        Txt "Promotion Schedule"; dn ]
      ++ (if showUserOptions optionsOpen
          then [Txt "Sign out"; Txt "logout"; upn; m]
          else [])
    /\ (forall str,
           plainMember (userData optionsOpen) displayName = Some str ->
           dn = Txt str)
    /\ (forall str,
           plainMember (userData optionsOpen) userPrincipalName = Some str ->
           upn = Txt str)
    /\ (forall str,
           plainMember (userData optionsOpen) mail = Some str -> m = Txt str).
Proof.
  apply (X9_texts_of_the_shell optionsOpen (shellOf exampleSession true)).
  - reflexivity.
  - reflexivity.
Defined.

(** X10. A stored value without a name still gets the shell.  When the
    shell is rendered and the stored value has no [displayName] of its own
    (it is an object without that property or with [null] there, or it is
    no object at all), the badge shows the empty text. *)
Theorem X10_missing_name_gives_empty_badge :
  forall s root,
    render s = Ok (Some root) -> isShell root = true ->
    (forall props,
        userData s = VObject props ->
        getOwn "displayName" props = None
        \/ getOwn "displayName" props = Some VNull) ->
    interpolate (userData s) displayName = Ok (Txt "")
    /\ nth_error (texts root) 6 = Some (Txt "").
Proof.
  intros s root Hr Hs Hn.
  destruct (render_isShell s root Hr Hs) as (_ & Ht & ->).
  pose proof (truthy_not_null _ Ht) as Hu.
  assert (E : memberText (userData s) displayName = Txt "").
  { unfold memberText. destruct (userData s) as [| | | | |props];
      try reflexivity.
    cbn [fieldName]. destruct (Hn props eq_refl) as [K|K]; rewrite K;
      reflexivity. }
  split.
  - rewrite (interpolate_eq _ displayName Hu), E; reflexivity.
  - unfold shellOf. rewrite E. destruct (showUserOptions s); reflexivity.
Qed.

Lemma X10_witness :
  interpolate (userData nameless) displayName = Ok (Txt "")
  /\ nth_error (texts (shellOf (userData nameless) false)) 6 = Some (Txt "").
Proof.
  apply (X10_missing_name_gives_empty_badge nameless
           (shellOf (userData nameless) false)).
  - reflexivity.
  - reflexivity.
  - intros props H. injection H as <-. left; reflexivity.
Defined.

(** X11. Without the shell nothing is interactive.  In every reachable state
    where the render function does not yield the shell (nothing, the
    restricted-access view, or a raise), every click leaves the whole state
    as it was. *)
Theorem X11_clicks_do_nothing_without_the_shell :
  forall s t o,
    reachable s ->
    (forall root, render s = Ok (Some root) -> isShell root = false) ->
    dispatch s t = Some o ->
    after o = s.
Proof.
  intros s t o Hr Hn Hd.
  pose proof (flag_off_without_shell s (reachable_invariant s Hr) Hn) as Hoff.
  destruct t as [path| |]; simpl in Hd; [| |injection Hd as <-; reflexivity].
  - destruct (dom s) as [root|] eqn:Hdom; try discriminate.
    destruct (dom_render s root Hdom) as [_ Hrender].
    pose proof (Hn root Hrender) as Hshell.
    destruct (render_some s root Hrender) as [[_ ->]|(_ & _ & ->)];
      [|discriminate Hshell].
    destruct (chainTo forbiddenView path) as [chain|] eqn:Hc;
      try discriminate.
    apply chainTo_forbiddenView in Hc; subst chain. simpl in Hd.
    injection Hd as <-; simpl.
    apply iter_bodyListener_off; exact Hoff.
  - injection Hd as <-; simpl.
    apply iter_bodyListener_off; exact Hoff.
Qed.

Lemma X11_witness :
  dispatch refused (Inside [])
  = Some {| after := refused; reachedBody := true |}
  /\ after {| after := refused; reachedBody := true |} = refused.
Proof.
  split; [reflexivity|].
  apply (X11_clicks_do_nothing_without_the_shell refused (Inside [])).
  - exact reachable_refused.
  - intros root H. injection H as <-. reflexivity.
  - reflexivity.
Defined.

(** X12. The popover is closed when the shell first appears.  The step
    that ends the mount hook (a fetch resolved with a non-success status, or
    a parsed body) leaves the flag off and exactly one listener on the
    body, so whatever is rendered then holds no sign-out link. *)
Theorem X12_popover_closed_when_the_hook_completes :
  forall s e s',
    reachable s -> task s <> Completed ->
    step s e = Some s' -> task s' = Completed ->
    showUserOptions s' = false
    /\ bodyListeners s' = 1
    /\ (e = JsonSettled \/ exists res, e = FetchResolved res /\ ok res = false)
    /\ forall root, render s' = Ok (Some root) -> signOutNodes root = [].
Proof.
  intros s e s' Hr Hnc Hs Hc.
  destruct (invariant_not_completed s (reachable_invariant s Hr) Hnc)
    as (_ & Hoff & Hl).
  assert (Hoff' : showUserOptions s' = false
                  /\ bodyListeners s' = 1
                  /\ (e = JsonSettled
                      \/ exists res, e = FetchResolved res /\ ok res = false)).
  { destruct e; simpl in Hs.
    - destruct (task s); try discriminate. injection Hs as <-.
      discriminate Hc.
    - destruct (task s); try discriminate. injection Hs as <-.
      unfold onMountedAfterFetch in *. destruct (ok res) eqn:Hok.
      + discriminate Hc.
      + simpl. rewrite Hl. repeat split; try assumption.
        right; exists res; split; [reflexivity | exact Hok].
    - destruct (task s); try discriminate. injection Hs as <-.
      discriminate Hc.
    - destruct (task s); try discriminate. injection Hs as <-.
      unfold onMountedAfterJson in *. destruct (json res).
      + simpl. rewrite Hl. repeat split; try assumption.
        left; reflexivity.
      + discriminate Hc.
    - destruct (dispatch s t) as [o|] eqn:Hd; try discriminate.
      injection Hs as <-.
      destruct (dispatch_frame _ _ _ Hd) as (_ & Ft & _).
      rewrite Ft in Hc; contradiction.
    - destruct (mounted s); try discriminate. injection Hs as <-.
      simpl in Hc; contradiction. }
  destruct Hoff' as (H1 & H2 & H3).
  repeat split; try assumption.
  intros root Hrender.
  destruct (render_some s' root Hrender) as [[_ ->]|(_ & _ & ->)].
  - reflexivity.
  - rewrite H1. reflexivity.
Qed.

Lemma X12_witness :
  showUserOptions signedIn = false
  /\ bodyListeners signedIn = 1
  /\ (JsonSettled = JsonSettled
      \/ exists res, JsonSettled = FetchResolved res /\ ok res = false)
  /\ forall root, render signedIn = Ok (Some root) -> signOutNodes root = [].
Proof.
  apply (X12_popover_closed_when_the_hook_completes
           (setTask (AwaitingJson exampleSuccess) fetching)
           JsonSettled signedIn).
  - exists [Mount; FetchResolved exampleSuccess]; reflexivity.
  - discriminate.
  - reflexivity.
  - reflexivity.
Defined.

(** X13. What a stored value other than an object renders.  [false], a zero,
    a string that reads as zero (the empty string among them) and the empty
    array give the restricted-access view (the [<Forbidden />] component),
    although the status was a success; [true], any other number or string,
    and an array of two or more convertible elements give the shell with an
    empty badge. *)
Theorem X13_values_other_than_objects :
  forall s,
    (forall b,
        userData s = VBool b ->
        render s = Ok (Some (if b then anonymousShell (showUserOptions s)
                             else Component "Forbidden" [] [])))
    /\ (forall x,
           userData s = VNumber x ->
           render s = if isZero x then Ok (Some (Component "Forbidden" [] []))
                      else if isNaN x then Ok None
                      else Ok (Some (anonymousShell (showUserOptions s))))
    /\ (forall str,
           userData s = VString str ->
           render s = Ok (Some (if StringToNumberIsZero str
                                then Component "Forbidden" [] []
                                else anonymousShell (showUserOptions s))))
    /\ (userData s = VArray [] ->
        render s = Ok (Some (Component "Forbidden" [] [])))
    /\ (forall a b rest,
           userData s = VArray (a :: b :: rest) ->
           toStringThrows (VArray (a :: b :: rest)) = false ->
           render s = Ok (Some (anonymousShell (showUserOptions s)))).
Proof.
  intros s. split; [|split; [|split; [|split]]].
  - intros b E. unfold render. rewrite E.
    destruct b; simpl; [|reflexivity].
    destruct (showUserOptions s); reflexivity.
  - intros x E. unfold render. rewrite E. simpl.
    destruct (isZero x); simpl; [reflexivity|].
    destruct (isNaN x); simpl; [reflexivity|].
    destruct (showUserOptions s); reflexivity.
  - intros str E. unfold render. rewrite E. simpl.
    destruct (StringToNumberIsZero str) eqn:Ez; [reflexivity|].
    destruct str as [|c str'].
    + vm_compute in Ez. discriminate Ez.
    + simpl. destruct (showUserOptions s); reflexivity.
  - intros E. unfold render. rewrite E. reflexivity.
  - intros a b rest E Hn. unfold render. rewrite E.
    unfold looseEqFalse. rewrite Hn. simpl.
    destruct (showUserOptions s); reflexivity.
Qed.

(** X14. The routed view is behind the identity check.  The render function
    places [<RouterView />] in the tree exactly when it yields the shell,
    once, inside [<div id="container">]; and it yields the shell only for a
    stored value other than [null] and [false].  In the unknown and absent
    states no routed view is rendered. *)
Theorem X14_routed_view_only_in_the_shell :
  forall s root,
    render s = Ok (Some root) ->
    routerViews root
    = (if isShell root then [Component "RouterView" [] []] else [])
    /\ (isShell root = true ->
        authState s = Present
        /\ exists chain,
             chainTo root [1; 0] = Some chain
             /\ map (attrIs "id" "container") chain = [false; true; false])
    /\ (authState s <> Present -> routerViews root = []).
Proof.
  intros s root Hr.
  destruct (render_some s root Hr) as [[_ ->]|(Hf & Ht & ->)].
  - split; [reflexivity | split].
    + intros H; discriminate H.
    + intros _; reflexivity.
  - assert (Hp : authState s = Present).
    { unfold authState.
      destruct (userData s) as [|[|]| | | |]; try reflexivity;
        discriminate Ht. }
    split; [|split].
    + destruct (showUserOptions s); reflexivity.
    + intros _. split; [exact Hp|].
      eexists. split; [reflexivity|].
      reflexivity.
    + intros Hn. contradiction.
Qed.

Lemma X14_witness :
  routerViews (shellOf exampleSession true)
  = (if isShell (shellOf exampleSession true)
     then [Component "RouterView" [] []] else [])
  /\ (isShell (shellOf exampleSession true) = true ->
      authState optionsOpen = Present
      /\ exists chain,
           chainTo (shellOf exampleSession true) [1; 0] = Some chain
           /\ map (attrIs "id" "container") chain = [false; true; false])
  /\ (authState optionsOpen <> Present ->
      routerViews (shellOf exampleSession true) = []).
Proof.
  apply (X14_routed_view_only_in_the_shell optionsOpen
           (shellOf exampleSession true)).
  reflexivity.
Defined.

(** X15. Nothing in the component signs the user out.  Once the render
    function yields the shell, it yields the shell after every further
    event, for the same stored value: no click, no unmount and no late
    settling replaces it by the restricted-access view or by nothing. *)
Theorem X15_shell_stays :
  forall s root evs s',
    reachable s -> render s = Ok (Some root) -> isShell root = true ->
    run s evs = Some s' ->
    userData s' = userData s
    /\ render s' = Ok (Some (shellOf (userData s) (showUserOptions s'))).
Proof.
  intros s root evs s' Hr Hrender Hs Hrun.
  destruct (render_isShell s root Hrender Hs) as (Hf & Ht & _).
  pose proof (reachable_invariant s Hr) as Hi.
  assert (Hu : userData s' = userData s).
  { apply (run_userData_stable evs s s' Hi); [|exact Hrun].
    apply truthy_not_null; exact Ht. }
  split; [exact Hu|].
  rewrite <- Hu. apply render_shell; rewrite Hu; assumption.
Qed.

Lemma X15_witness :
  userData signedIn = userData optionsOpen
  /\ render signedIn
     = Ok (Some (shellOf (userData optionsOpen) (showUserOptions signedIn))).
Proof.
  apply (X15_shell_stays optionsOpen (shellOf exampleSession true)
           [Click Outside] signedIn).
  - exact reachable_optionsOpen.
  - reflexivity.
  - reflexivity.
  - reflexivity.
Defined.
